(** * Lardo feedback dashboard: the form's validation and the admin panel's
      statistics, projection, export and live feed

    A shallow embedding of [CustomerForm] and [AdminPanel] (React components
    of the repository).  Component state is passed explicitly; every handler
    is a function from the state it reads to the value it produces.

    Numbers.  The six scores of a feedback are JavaScript numbers that hold
    integers; they are kept as [Z], and so are their sums, which are exact
    in a double far beyond any number of feedbacks.  The averages ([sum /
    6], [total / length]) are kept as the exact rationals [Q] that the
    doubles of the browser approximate: what is stated of them (bounds by
    integers, comparisons with integers and with each other, rounding to
    the nearest integer of a number of sixths) does not depend on the last
    bit of the quotient.  The percentage of [getRecurrentCustomers] does:
    it rounds [(a / b) * 100], which can sit on a half.  It is therefore
    computed in binary64 itself, with the operations of the standard
    library's [SpecFloat], an executable definition of IEEE 754
    arithmetic.

    Objects.  An object with fixed keys is a record, or the list of its
    entries where the code walks them in order.  The object that
    [getRecurrentCustomers] uses as a dictionary is a finite map; a [cpf]
    that spells the name of a member of [Object.prototype] would not
    behave as a key of a dictionary and is outside the model. *)

From Stdlib Require Import ZArith QArith Qabs Qround Lqa String Ascii List.
From Stdlib Require Import Permutation Sorted DecimalString SpecFloat.
From stdpp Require Import gmap strings list fin_maps.

Local Open Scope Z_scope.

(** ** JavaScript numbers *)

Module JS.

(** [Math.round] on an exact quotient: the nearest integer, a half rounding
    towards plus infinity, that is [floor (q + 1/2)]. *)
Definition Math_round (q : Q) : Z := Qfloor (q + (1 # 2)).

(** [Array.prototype.sort] with a comparison function.  The standard fixes
    the result for a consistent comparator: the sorted permutation in which
    elements that compare equal keep their relative order (the sort is
    stable since ES2019).  A stable insertion sort computes it: [x], which
    precedes every element of [l] in the input, is put before the first
    [y] with [comparefn x y <= 0]. *)
Section Sort.
Context {A : Type} (comparefn : A -> A -> Q).

Fixpoint sort_insert (x : A) (l : list A) : list A :=
  match l with
  | [] => [x]
  | y :: l' =>
      if Qle_bool (comparefn x y) 0 then x :: y :: l'
      else y :: sort_insert x l'
  end.

Fixpoint sort (l : list A) : list A :=
  match l with
  | [] => []
  | x :: l' => sort_insert x (sort l')
  end.
End Sort.

(** [String(n)] for an integer-valued number. *)
Definition toString (n : Z) : string := NilZero.string_of_int (Z.to_int n).

(** [parts.join(sep)]. *)
Fixpoint join (sep : string) (parts : list string) : string :=
  match parts with
  | [] => EmptyString
  | [p] => p
  | p :: rest => p ++ sep ++ join sep rest
  end.

(** [x.toFixed(1)] on an exact quotient below 10^21 in size: the sign, then
    the integer [n] of tenths nearest to the absolute value, the larger of
    two that are equally near, written with one digit behind the point. *)
Definition tenths (q : Q) : Z := Qfloor (Qabs q * 10 + (1 # 2)).

Definition toFixed1 (q : Q) : string :=
  ((if Qle_bool 0 q then EmptyString else "-")
   ++ toString (tenths q / 10) ++ "." ++ toString (tenths q mod 10))%string.

(** *** Doubles *)

Module Double.

(** binary64: 53 bits of precision, exponents below 1024. *)
Definition prec : Z := 53.
Definition emax : Z := 1024.

(** A JavaScript number as the double it is. *)
Definition number : Type := spec_float.

(** The double of an integer: the integer itself up to 2^53, the nearest
    double beyond. *)
Definition of_Z (z : Z) : number := binary_normalize prec emax z 0 false.

(** [x / y], [x * y], [x - y] and [x <= y]. *)
Definition div : number -> number -> number := SFdiv prec emax.
Definition mul : number -> number -> number := SFmul prec emax.
Definition sub : number -> number -> number := SFsub prec emax.
Definition leb : number -> number -> bool := SFleb.

(** [Math.round(x)]: the integer nearest to [x], the upper one of two that
    are equally near; infinities, [NaN] and zeros are returned as they
    are, and a negative [x] that rounds to zero gives the negative zero.
    A finite [x] is [m * 2^e] with its sign: an integer already when [e]
    is not negative, and otherwise [floor (x + 1/2)] is the quotient of
    [m + 2^(-e-1)], signed, by [2^(-e)]. *)
Definition Math_round (x : number) : number :=
  match x with
  | S754_finite s m e =>
      if 0 <=? e then x
      else
        let k := (cond_Zopp s (Zpos m) + 2 ^ (- e - 1)) / 2 ^ (- e) in
        if k =? 0 then S754_zero s else of_Z k
  | _ => x
  end.

(** The integer of tenths that [x.toFixed(1)] writes for a finite [x]:
    the nearest to the absolute value [m * 2^e], the larger of two that
    are equally near. *)
Definition tenths (x : number) : option Z :=
  match x with
  | S754_zero _ => Some 0
  | S754_finite _ m e =>
      Some (if 0 <=? e then Zpos m * 2 ^ e * 10
            else (10 * Zpos m + 2 ^ (- e - 1)) / 2 ^ (- e))
  | _ => None
  end.

(** [x || 0]: the zeros and [NaN] are falsy and give the literal [0]. *)
Definition or_zero (x : number) : number :=
  match x with
  | S754_zero _ | S754_nan => S754_zero false
  | _ => x
  end.

End Double.

End JS.

(** ** AdminPanel *)

Module AdminPanel.

(** [interface Feedback].  [created_at] is the ISO timestamp the store
    assigns; the panel only ever reads it through [new Date(created_at)],
    so the record keeps the instant it denotes, in milliseconds since the
    epoch ([getTime()]).  [comentario] is [null] when the form was sent
    without a comment. *)
Record Feedback : Type := {
  id : string;
  created_at : Z;
  nome : string;
  cpf : string;
  telefone : string;
  instagram : string;
  qualidade_comida : Z;
  atendimento : Z;
  tempo_espera : Z;
  higiene_limpeza : Z;
  custo_beneficio : Z;
  ambiente_conforto : Z;
  comentario : option string
}.

(** The sum every per-record average starts from, in the source's order. *)
Definition scoreSum (feedback : Feedback) : Z :=
  qualidade_comida feedback + atendimento feedback + tempo_espera feedback +
  higiene_limpeza feedback + custo_beneficio feedback +
  ambiente_conforto feedback.

(** The per-record average [(... + ...) / 6] of the filter, the comparator
    and the card. *)
Definition avgRating (feedback : Feedback) : Q := inject_Z (scoreSum feedback) / 6.

(** *** calculateAverages *)

(** The accumulator of the [reduce] in [calculateAverages]. *)
Record Totals : Type := {
  tot_qualidade_comida : Z;
  tot_atendimento : Z;
  tot_tempo_espera : Z;
  tot_higiene_limpeza : Z;
  tot_custo_beneficio : Z;
  tot_ambiente_conforto : Z
}.

Definition totals_init : Totals :=
  {| tot_qualidade_comida := 0; tot_atendimento := 0; tot_tempo_espera := 0;
     tot_higiene_limpeza := 0; tot_custo_beneficio := 0;
     tot_ambiente_conforto := 0 |}.

Definition totals_step (acc : Totals) (feedback : Feedback) : Totals :=
  {| tot_qualidade_comida := tot_qualidade_comida acc + qualidade_comida feedback;
     tot_atendimento := tot_atendimento acc + atendimento feedback;
     tot_tempo_espera := tot_tempo_espera acc + tempo_espera feedback;
     tot_higiene_limpeza := tot_higiene_limpeza acc + higiene_limpeza feedback;
     tot_custo_beneficio := tot_custo_beneficio acc + custo_beneficio feedback;
     tot_ambiente_conforto := tot_ambiente_conforto acc + ambiente_conforto feedback |}.

(** [Object.entries(totals)]: the keys in the order the literal lists them. *)
Definition totals_entries (t : Totals) : list (string * Z) :=
  [ ("qualidade_comida"%string, tot_qualidade_comida t);
    ("atendimento"%string, tot_atendimento t);
    ("tempo_espera"%string, tot_tempo_espera t);
    ("higiene_limpeza"%string, tot_higiene_limpeza t);
    ("custo_beneficio"%string, tot_custo_beneficio t);
    ("ambiente_conforto"%string, tot_ambiente_conforto t) ].

(** [calculateAverages]: the empty object for no feedback, otherwise the
    six entries [key, total / feedbacks.length]. *)
Definition calculateAverages (feedbacks : list Feedback) : list (string * Q) :=
  if (length feedbacks =? 0)%nat then []
  else
    let totals := fold_left totals_step feedbacks totals_init in
    map (fun '(key, value) =>
           (key, (inject_Z value / inject_Z (Z.of_nat (length feedbacks)))%Q))
        (totals_entries totals).


(** [Object.values(averages)]. *)
Definition Object_values {V : Type} (o : list (string * V)) : list V := map snd o.

(** [overallAverage], computed in the component body. *)
Definition overallAverage (feedbacks : list Feedback) : Q :=
  let averages := calculateAverages feedbacks in
  if (length (Object_values averages) =? 0)%nat then 0%Q
  else
    (fold_left (fun sum avg => sum + avg) (Object_values averages) 0
     / inject_Z (Z.of_nat (length (Object_values averages))))%Q.

(** *** getWorstAndBestCriteria *)

(** [criteriaMapping]: the label of each criterion. *)
Definition criteriaMapping : list (string * string) :=
  [ ("qualidade_comida", "Qualidade da Comida");
    ("atendimento", "Atendimento");
    ("tempo_espera", "Tempo de Espera");
    ("higiene_limpeza", "Higiene e Limpeza");
    ("custo_beneficio", "Custo-Benefício");
    ("ambiente_conforto", "Ambiente e Conforto") ]%string.

(** [criteriaMapping[key]]: [None] is [undefined]. *)
Fixpoint criteriaMapping_get (mapping : list (string * string)) (key : string)
  : option string :=
  match mapping with
  | [] => None
  | (k, label) :: rest =>
      if String.eqb k key then Some label else criteriaMapping_get rest key
  end.

(** [entries.reduce(f)] without an initial value, on an array that is not
    empty: the first element starts the accumulation. *)
Definition reduce1 {A : Type} (f : A -> A -> A) (first : A) (rest : list A) : A :=
  fold_left f rest first.

(** [current[1] < min[1] ? current : min] and its mirror image. *)
Definition keepLower (min current : string * Q) : string * Q :=
  if negb (Qle_bool (snd min) (snd current)) then current else min.

Definition keepHigher (max current : string * Q) : string * Q :=
  if negb (Qle_bool (snd current) (snd max)) then current else max.

(** One side of the result: [{ name: criteriaMapping[key], score }]. *)
Record Criterion : Type := { criterion_name : option string; score : Q }.

(** [getWorstAndBestCriteria]: the pair [(worst, best)], each [None] for
    [null]. *)
Definition getWorstAndBestCriteria (feedbacks : list Feedback)
  : option Criterion * option Criterion :=
  match calculateAverages feedbacks with
  | [] => (None, None)
  | first :: rest =>
      let worst := reduce1 keepLower first rest in
      let best := reduce1 keepHigher first rest in
      (Some {| criterion_name := criteriaMapping_get criteriaMapping (fst worst);
               score := snd worst |},
       Some {| criterion_name := criteriaMapping_get criteriaMapping (fst best);
               score := snd best |})
  end.

(** *** getRatingDistribution *)

Record Bucket : Type := { rating : Z; count : Z }.

(** [Array.from({ length: 5 }, (_, i) => ({ rating: i + 1, count: 0 }))]. *)
Definition distribution_init : list Bucket :=
  map (fun i => {| rating := i + 1; count := 0 |}) [0; 1; 2; 3; 4].

(** [Math.round((... + ...) / 6)]. *)
Definition roundedRating (feedback : Feedback) : Z :=
  JS.Math_round (inject_Z (scoreSum feedback) / 6).

(** [distribution[i].count++]. *)
Definition bump (b : Bucket) : Bucket :=
  {| rating := rating b; count := count b + 1 |}.

(** The body of the [forEach]: the guard, then the increment. *)
Definition distribution_step (distribution : list Bucket) (feedback : Feedback)
  : list Bucket :=
  let avgRating := roundedRating feedback in
  if (1 <=? avgRating) && (avgRating <=? 5)
  then alter bump (Z.to_nat (avgRating - 1)) distribution
  else distribution.

Definition getRatingDistribution (feedbacks : list Feedback) : list Bucket :=
  fold_left distribution_step feedbacks distribution_init.

(** *** getRecurrentCustomers *)

(** The [reduce] that counts the feedbacks of each [cpf].  The accumulator
    object is a dictionary from [cpf] to a count; [acc[cpf] || 0] reads an
    absent key, and a zero, as [0]. *)
Definition cpfCounts_step (acc : gmap string Z) (feedback : Feedback)
  : gmap string Z :=
  <[cpf feedback := default 0 (acc !! cpf feedback) + 1]> acc.

Definition cpfCounts (feedbacks : list Feedback) : gmap string Z :=
  fold_left cpfCounts_step feedbacks ∅.

(** [Object.values(cpfCounts).filter(count => count > 1).length]. *)
Definition recurrentCount (counts : gmap string Z) : nat :=
  length (List.filter (fun count => 1 <? count) (map snd (map_to_list counts))).

(** [Object.keys(cpfCounts).length]. *)
Definition keysLength (counts : gmap string Z) : nat :=
  length (map fst (map_to_list counts)).

(** [Math.round((recurrentCount / Object.keys(cpfCounts).length) * 100) || 0]:
    the two lengths are integers, the quotient and the product doubles. *)
Definition getRecurrentCustomers (feedbacks : list Feedback) : JS.Double.number :=
  let counts := cpfCounts feedbacks in
  JS.Double.or_zero
    (JS.Double.Math_round
       (JS.Double.mul
          (JS.Double.div (JS.Double.of_Z (Z.of_nat (recurrentCount counts)))
                         (JS.Double.of_Z (Z.of_nat (keysLength counts))))
          (JS.Double.of_Z 100))).

(** *** filteredAndSortedFeedbacks *)

(** The [sortBy] state. *)
Inductive SortBy : Type := recent | best | worst.

(** The [minRatingFilter] state: ["all"], or one of the strings ["1"] to
    ["5"] that the select offers, kept as the number [Number(...)] reads
    from it. *)
Inductive MinRatingFilter : Type :=
  | filter_all
  | filter_min (minRating : Z).

(** The comparison function handed to [sort]. *)
Definition compareFeedbacks (sortBy : SortBy) (a b : Feedback) : Q :=
  match sortBy with
  | recent => inject_Z (created_at b - created_at a)
  | best => avgRating b - avgRating a
  | worst => avgRating a - avgRating b
  end.

(** The predicate of [feedbacks.filter]: [avgRating >= minRating]. *)
Definition passesMinRating (minRating : Z) (feedback : Feedback) : bool :=
  Qle_bool (inject_Z minRating) (avgRating feedback).

(** The local [filtered] when [sort] is reached: the [feedbacks] array
    itself with the filter off, the fresh array [filter] made with a
    minimum. *)
Definition filtered (minRatingFilter : MinRatingFilter)
    (feedbacks : list Feedback) : list Feedback :=
  match minRatingFilter with
  | filter_all => feedbacks
  | filter_min minRating => List.filter (passesMinRating minRating) feedbacks
  end.

(** [filteredAndSortedFeedbacks]: the array it returns, paired with the
    [feedbacks] array as the call leaves it.  [sort] works in place and
    returns its array: with the filter off that array is [feedbacks],
    which is thereby reordered; with a minimum, [feedbacks] is left
    alone. *)
Definition filteredAndSortedFeedbacks
    (sortBy : SortBy) (minRatingFilter : MinRatingFilter)
    (feedbacks : list Feedback) : list Feedback * list Feedback :=
  let sorted :=
    JS.sort (compareFeedbacks sortBy) (filtered minRatingFilter feedbacks) in
  (sorted,
   match minRatingFilter with
   | filter_all => sorted
   | filter_min _ => feedbacks
   end).

(** *** exportToCSV *)

Definition quote_char : ascii := Eval cbv in ascii_of_nat 34.
Definition comma_char : ascii := Eval cbv in ascii_of_nat 44.
Definition newline_char : ascii := Eval cbv in ascii_of_nat 10.

(** [comentario.replace] on the quote character, globally: every quote is
    written twice. *)
Fixpoint escapeQuotes (s : string) : string :=
  match s with
  | EmptyString => EmptyString
  | String c rest =>
      if Ascii.eqb c quote_char
      then String quote_char (String quote_char (escapeQuotes rest))
      else String c (escapeQuotes rest)
  end.

(** The last cell of a row: the comment between quotes, its quotes doubled;
    a [null] or empty comment gives the empty cell between quotes. *)
Definition commentCell (comentario : option string) : string :=
  String quote_char (escapeQuotes (default EmptyString comentario)
                     ++ String quote_char EmptyString).

Definition pad2 (n : Z) : string :=
  if n <? 10 then "0" ++ JS.toString n else JS.toString n.

(** [new Date(created_at).toLocaleDateString('pt-BR')]: day/month/year of
    the instant, here for a browser whose time zone is UTC.  The calendar
    date comes from the day number by the usual era/day-of-era
    computation. *)
Definition toLocaleDateString (t : Z) : string :=
  let z := t / 86400000 + 719468 in
  let era := z / 146097 in
  let doe := z - era * 146097 in
  let yoe := (doe - doe / 1460 + doe / 36524 - doe / 146096) / 365 in
  let doy := doe - (365 * yoe + yoe / 4 - yoe / 100) in
  let mp := (5 * doy + 2) / 153 in
  let d := doy - (153 * mp + 2) / 5 + 1 in
  let m := if mp <? 10 then mp + 3 else mp - 9 in
  let y := yoe + era * 400 + (if m <=? 2 then 1 else 0) in
  pad2 d ++ "/" ++ pad2 m ++ "/" ++ JS.toString y.

Definition headers : list string :=
  [ "Nome"; "CPF"; "Telefone"; "Instagram"; "Data"; "Qualidade Comida";
    "Atendimento"; "Tempo Espera"; "Higiene"; "Custo-Benefício"; "Ambiente";
    "Comentário" ]%string.

(** The cells of one row, as the array literal lists them. *)
Definition csvRow (feedback : Feedback) : list string :=
  [ nome feedback;
    cpf feedback;
    telefone feedback;
    instagram feedback;
    toLocaleDateString (created_at feedback);
    JS.toString (qualidade_comida feedback);
    JS.toString (atendimento feedback);
    JS.toString (tempo_espera feedback);
    JS.toString (higiene_limpeza feedback);
    JS.toString (custo_beneficio feedback);
    JS.toString (ambiente_conforto feedback);
    commentCell (comentario feedback) ].

(** [csvContent], the text [exportToCSV] puts in the downloaded file. *)
Definition exportToCSV (feedbacks : list Feedback) : string :=
  JS.join (String newline_char EmptyString)
    (JS.join "," headers :: map (fun feedback => JS.join "," (csvRow feedback)) feedbacks).

(** *** The live feed *)

(** The handler of the [INSERT] notifications of the [feedbacks-changes]
    channel: [setFeedbacks(prev => [payload.new, ...prev])]. *)
Definition onInsert (payload_new : Feedback) (prev : list Feedback) : list Feedback :=
  payload_new :: prev.

(** *** The card of a feedback *)

(** [avgRating <= 3]: the card is drawn as a negative one. *)
Definition isNegative (feedback : Feedback) : bool :=
  Qle_bool (avgRating feedback) 3.

(** [avgRating.toFixed(1)], the number written on the card. *)
Definition cardAverage (feedback : Feedback) : string :=
  JS.toFixed1 (avgRating feedback).

(** [Array.from({ length: 5 }).map((_, i) => i < Math.round(avgRating))]:
    which of the five stars of the card are filled. *)
Definition cardStars (feedback : Feedback) : list bool :=
  map (fun i => i <? JS.Math_round (avgRating feedback)) [0; 1; 2; 3; 4].

(** *** The component *)

(** The [useState] cells of the panel. *)
Record PanelState : Type := {
  feedbacks : list Feedback;
  loading : bool;
  sortBy : SortBy;
  minRatingFilter : MinRatingFilter
}.

Definition panel_initial : PanelState :=
  {| feedbacks := []; loading := true; sortBy := recent;
     minRatingFilter := filter_all |}.

(** What the query of [fetchFeedbacks] comes back with: the rows ([null]
    for none), or an error. *)
Inductive FetchResult : Type :=
  | fetch_data (data : option (list Feedback))
  | fetch_error.

(** [fetchFeedbacks] once its query has answered: [setFeedbacks(data ||
    [])] unless an error was thrown, and [setLoading(false)] either way. *)
Definition fetchFeedbacks (result : FetchResult) (st : PanelState) : PanelState :=
  {| feedbacks :=
       match result with
       | fetch_data data => default [] data
       | fetch_error => feedbacks st
       end;
     loading := false;
     sortBy := sortBy st;
     minRatingFilter := minRatingFilter st |}.

(** One call of [filteredAndSortedFeedbacks] in a render: what it returns,
    and the state with the [feedbacks] array as the call leaves it. *)
Definition project (st : PanelState) : list Feedback * PanelState :=
  let '(shown, after) :=
    filteredAndSortedFeedbacks (sortBy st) (minRatingFilter st) (feedbacks st) in
  (shown,
   {| feedbacks := after; loading := loading st; sortBy := sortBy st;
      minRatingFilter := minRatingFilter st |}).

(** What a render puts on the screen of the list. *)
Record ListView : Type := {
  titleCount : nat;
  cards : list Feedback;
  emptyNotice : bool
}.

(** The render of the component.  While [loading] it returns the spinner
    before anything is computed.  Afterwards the list is built from three
    calls of [filteredAndSortedFeedbacks], in this order: the length in
    the title, the cards, the test for the empty notice. *)
Definition render (st : PanelState) : option ListView * PanelState :=
  if loading st then (None, st)
  else
    let '(first, st1) := project st in
    let '(second, st2) := project st1 in
    let '(third, st3) := project st2 in
    (Some {| titleCount := length first;
             cards := second;
             emptyNotice := (length third =? 0)%nat |},
     st3).

(** What happens to the panel. *)
Inductive PanelEvent : Type :=
  | Fetched (result : FetchResult)
  | Inserted (payload_new : Feedback)
  | SortBySet (value : SortBy)
  | MinRatingFilterSet (value : MinRatingFilter)
  | Rendered.

Definition panel_step (st : PanelState) (ev : PanelEvent) : PanelState :=
  match ev with
  | Fetched result => fetchFeedbacks result st
  | Inserted payload_new =>
      {| feedbacks := onInsert payload_new (feedbacks st); loading := loading st;
         sortBy := sortBy st; minRatingFilter := minRatingFilter st |}
  | SortBySet value =>
      {| feedbacks := feedbacks st; loading := loading st; sortBy := value;
         minRatingFilter := minRatingFilter st |}
  | MinRatingFilterSet value =>
      {| feedbacks := feedbacks st; loading := loading st; sortBy := sortBy st;
         minRatingFilter := value |}
  | Rendered => snd (render st)
  end.

Definition panel_run (events : list PanelEvent) (st : PanelState) : PanelState :=
  fold_left panel_step events st.

End AdminPanel.

(** ** StarRating *)

Module StarRating.

(** The stars the component renders, [[1, 2, 3, 4, 5].map(...)]: one button
    per element. *)
Definition stars : list Z := [1; 2; 3; 4; 5].

(** [handleClick]: what is handed to [onChange], if anything. *)
Definition handleClick (readonly : bool) (rating : Z) : option Z :=
  if negb readonly then Some rating else None.

(** [hover || value]: the hovered star if there is one, else the value. *)
Definition shownRating (hover value : Z) : Z :=
  if hover =? 0 then value else hover.

(** [star <= (hover || value)]: the star is drawn filled. *)
Definition filled (hover value star : Z) : bool := star <=? shownRating hover value.

(** The five stars as drawn. *)
Definition drawn (hover value : Z) : list bool := map (filled hover value) stars.

(** What the pointer does to a star. *)
Inductive StarEvent : Type :=
  | Click (star : Z)
  | MouseEnter (star : Z)
  | MouseLeave.

(** The [hover] cell after an event: [!readonly && setHover(...)]. *)
Definition hover_step (readonly : bool) (hover : Z) (ev : StarEvent) : Z :=
  match ev with
  | Click _ => hover
  | MouseEnter star => if negb readonly then star else hover
  | MouseLeave => if negb readonly then 0 else hover
  end.

(** What an event hands to [onChange]. *)
Definition emitted (readonly : bool) (ev : StarEvent) : option Z :=
  match ev with
  | Click star => handleClick readonly star
  | _ => None
  end.

(** An event on one of the stars the component renders. *)
Definition pointer (ev : StarEvent) : Prop :=
  match ev with
  | Click star | MouseEnter star => In star stars
  | MouseLeave => True
  end.

(** A sequence of events: the [hover] cell at the end, from 0, and the
    ratings handed to [onChange]. *)
Definition hover_run (readonly : bool) (events : list StarEvent) : Z :=
  fold_left (hover_step readonly) events 0.

Definition emitted_run (readonly : bool) (events : list StarEvent) : list Z :=
  flat_map (fun ev => match emitted readonly ev with
                      | Some rating => [rating]
                      | None => []
                      end) events.

End StarRating.

(** ** CustomerForm *)

Module CustomerForm.

Record CustomerData : Type := {
  name : string;
  cpf : string;
  phone : string;
  instagram : string
}.

Record RatingData : Type := {
  foodQuality : Z;
  service : Z;
  waitTime : Z;
  cleanliness : Z;
  valueForMoney : Z;
  ambiance : Z;
  comment : string
}.

(** The component's state: the two [useState] cells validation reads. *)
Record FormState : Type := {
  customer : CustomerData;
  ratings : RatingData
}.

Definition customer_init : CustomerData :=
  {| name := EmptyString; cpf := EmptyString; phone := EmptyString;
     instagram := EmptyString |}.

Definition ratings_init : RatingData :=
  {| foodQuality := 0; service := 0; waitTime := 0; cleanliness := 0;
     valueForMoney := 0; ambiance := 0; comment := EmptyString |}.

Definition initial : FormState :=
  {| customer := customer_init; ratings := ratings_init |}.

(** [keyof CustomerData]. *)
Inductive CustomerKey : Type := k_name | k_cpf | k_phone | k_instagram.

(** The keys of [RatingData] that [ratingCriteria] lists. *)
Inductive CriterionKey : Type :=
  | k_foodQuality | k_service | k_waitTime | k_cleanliness
  | k_valueForMoney | k_ambiance.

Definition ratingCriteria : list CriterionKey :=
  [ k_foodQuality; k_service; k_waitTime; k_cleanliness; k_valueForMoney;
    k_ambiance ].

(** [ratings[criteria.key]]. *)
Definition rating_get (r : RatingData) (key : CriterionKey) : Z :=
  match key with
  | k_foodQuality => foodQuality r
  | k_service => service r
  | k_waitTime => waitTime r
  | k_cleanliness => cleanliness r
  | k_valueForMoney => valueForMoney r
  | k_ambiance => ambiance r
  end.

(** [{ ...prev, [field]: value }] on the customer. *)
Definition handleCustomerChange (field : CustomerKey) (value : string)
    (s : FormState) : FormState :=
  let prev := customer s in
  {| customer :=
       match field with
       | k_name => {| name := value; cpf := cpf prev; phone := phone prev;
                      instagram := instagram prev |}
       | k_cpf => {| name := name prev; cpf := value; phone := phone prev;
                     instagram := instagram prev |}
       | k_phone => {| name := name prev; cpf := cpf prev; phone := value;
                       instagram := instagram prev |}
       | k_instagram => {| name := name prev; cpf := cpf prev; phone := phone prev;
                           instagram := value |}
       end;
     ratings := ratings s |}.

(** [handleRatingChange] as a star widget calls it: [{ ...prev, [field]:
    value }] with a criterion key and a number. *)
Definition handleRatingChange (field : CriterionKey) (value : Z)
    (s : FormState) : FormState :=
  let prev := ratings s in
  let pick (key : CriterionKey) (old : Z) : Z :=
    match field, key with
    | k_foodQuality, k_foodQuality | k_service, k_service
    | k_waitTime, k_waitTime | k_cleanliness, k_cleanliness
    | k_valueForMoney, k_valueForMoney | k_ambiance, k_ambiance => value
    | _, _ => old
    end in
  {| customer := customer s;
     ratings :=
       {| foodQuality := pick k_foodQuality (foodQuality prev);
          service := pick k_service (service prev);
          waitTime := pick k_waitTime (waitTime prev);
          cleanliness := pick k_cleanliness (cleanliness prev);
          valueForMoney := pick k_valueForMoney (valueForMoney prev);
          ambiance := pick k_ambiance (ambiance prev);
          comment := comment prev |} |}.

(** [handleRatingChange] as the comment box calls it: the key is [comment]
    and the value the text. *)
Definition handleCommentChange (value : string) (s : FormState) : FormState :=
  let prev := ratings s in
  {| customer := customer s;
     ratings :=
       {| foodQuality := foodQuality prev; service := service prev;
          waitTime := waitTime prev; cleanliness := cleanliness prev;
          valueForMoney := valueForMoney prev; ambiance := ambiance prev;
          comment := value |} |}.

(** [!s] on a string: only the empty string is falsy. *)
Definition isEmpty (s : string) : bool :=
  match s with
  | EmptyString => true
  | String _ _ => false
  end.

(** [validateForm], the toasts left out: [false] from either early return,
    [true] at the end. *)
Definition validateForm (s : FormState) : bool :=
  if isEmpty (name (customer s)) || isEmpty (cpf (customer s))
     || isEmpty (phone (customer s)) || isEmpty (instagram (customer s))
  then false
  else
    let missingRatings :=
      List.filter (fun criteria => rating_get (ratings s) criteria =? 0)
                  ratingCriteria in
    if (0 <? length missingRatings)%nat then false else true.

(** The row handed to [supabase.from('feedbacks').insert]; [ins_cpf] and
    [ins_instagram] are its columns [cpf] and [instagram]. *)
Record FeedbackInsert : Type := {
  nome : string;
  ins_cpf : string;
  telefone : string;
  ins_instagram : string;
  qualidade_comida : Z;
  atendimento : Z;
  tempo_espera : Z;
  higiene_limpeza : Z;
  custo_beneficio : Z;
  ambiente_conforto : Z;
  comentario : option string
}.

(** [handleSubmit]: the row sent to the store, if one is, and the form
    afterwards.  [insertError] is the store's answer: without an error the
    form is reset, with one it is kept. *)
Definition handleSubmit (insertError : bool) (s : FormState)
  : option FeedbackInsert * FormState :=
  if negb (validateForm s) then (None, s)
  else
    let row :=
      {| nome := name (customer s);
         ins_cpf := cpf (customer s);
         telefone := phone (customer s);
         ins_instagram := instagram (customer s);
         qualidade_comida := foodQuality (ratings s);
         atendimento := service (ratings s);
         tempo_espera := waitTime (ratings s);
         higiene_limpeza := cleanliness (ratings s);
         custo_beneficio := valueForMoney (ratings s);
         ambiente_conforto := ambiance (ratings s);
         comentario :=
           if isEmpty (comment (ratings s)) then None
           else Some (comment (ratings s)) |} in
    (Some row, if insertError then s else initial).

(** One interaction with the form.  A star widget is rendered without
    [readonly], so a click on the star [star] reaches [handleRatingChange]
    with that number. *)
Inductive step : FormState -> FormState -> Prop :=
  | step_customer (field : CustomerKey) (value : string) (s : FormState) :
      step s (handleCustomerChange field value s)
  | step_star (field : CriterionKey) (star value : Z) (s : FormState) :
      In star StarRating.stars ->
      StarRating.handleClick false star = Some value ->
      step s (handleRatingChange field value s)
  | step_comment (value : string) (s : FormState) :
      step s (handleCommentChange value s)
  | step_submit (insertError : bool) (s : FormState) :
      step s (snd (handleSubmit insertError s)).

(** The states the form can be in: those a sequence of interactions leads
    to from the initial one. *)
Inductive reachable : FormState -> Prop :=
  | reachable_initial : reachable initial
  | reachable_step (s s' : FormState) :
      reachable s -> step s s' -> reachable s'.

(** What the customer does to the form: typing in one of the four inputs,
    a click on a star of a criterion, typing in the comment box, and a
    submit, with the answer of the store. *)
Inductive FormEvent : Type :=
  | Typed (field : CustomerKey) (value : string)
  | StarClicked (field : CriterionKey) (star : Z)
  | CommentTyped (value : string)
  | Submitted (insertError : bool).

(** The handler an event reaches: the form afterwards, and the row sent to
    the store, if one is. *)
Definition form_step (s : FormState) (ev : FormEvent)
  : FormState * option FeedbackInsert :=
  match ev with
  | Typed field value => (handleCustomerChange field value s, None)
  | StarClicked field star =>
      match StarRating.handleClick false star with
      | Some value => (handleRatingChange field value s, None)
      | None => (s, None)
      end
  | CommentTyped value => (handleCommentChange value s, None)
  | Submitted insertError =>
      let '(row, s') := handleSubmit insertError s in (s', row)
  end.

(** A sequence of events: the form at the end and the rows sent, in the
    order they were sent. *)
Fixpoint form_run (events : list FormEvent) (s : FormState)
  : FormState * list FeedbackInsert :=
  match events with
  | [] => (s, [])
  | ev :: rest =>
      let '(s1, row) := form_step s ev in
      let '(s2, rows) := form_run rest s1 in
      (s2, match row with Some r => r :: rows | None => rows end)
  end.

End CustomerForm.

(** ** The specification's words

    Definitions that follow the specification rather than the code: what
    the statistics are said to count and the orders a projection is said
    to have, with the notions the statements about them need. *)

Module Spec.
Import AdminPanel.

(** [criterionSum]: the sum of one criterion over the records. *)
Definition criterionSum (score : Feedback -> Z) (records : list Feedback) : Z :=
  fold_right (fun r acc => score r + acc) 0 records.

(** [perCriterionAverage = criterionSum / count]. *)
Definition perCriterionAverage (score : Feedback -> Z) (records : list Feedback) : Q :=
  inject_Z (criterionSum score records) / inject_Z (Z.of_nat (length records)).

(** The mean of the per-record averages. *)
Definition meanOfRecordAverages (records : list Feedback) : Q :=
  (fold_right (fun r acc => avgRating r + acc) 0 records
   / inject_Z (Z.of_nat (length records)))%Q.

(** The histogram bucket [k] as the specification defines it: the number
    of records whose rounded average is [k]. *)
Definition histogram (k : Z) (records : list Feedback) : Z :=
  Z.of_nat (length (List.filter (fun r => roundedRating r =? k) records)).

(** The five buckets, rated 1 to 5, with the given counts. *)
Definition buckets (countOf : Z -> Z) : list Bucket :=
  map (fun k => {| rating := k; count := countOf k |}) [1; 2; 3; 4; 5].

(** The six scores of a record all have the value [score]. *)
Definition constantScores (score : Z) (r : Feedback) : Prop :=
  qualidade_comida r = score /\ atendimento r = score /\
  tempo_espera r = score /\ higiene_limpeza r = score /\
  custo_beneficio r = score /\ ambiente_conforto r = score.


(** The number of records of one [cpf]. *)
Definition occurrences (c : string) (records : list Feedback) : nat :=
  length (List.filter (fun r => String.eqb (cpf r) c) records).



(** Every score of a record is an integer from 1 to 5. *)
Definition validScores (r : Feedback) : Prop :=
  1 <= qualidade_comida r <= 5 /\ 1 <= atendimento r <= 5 /\
  1 <= tempo_espera r <= 5 /\ 1 <= higiene_limpeza r <= 5 /\
  1 <= custo_beneficio r <= 5 /\ 1 <= ambiente_conforto r <= 5.

(** The order a projection is sorted by, ties left open: [a] is not
    after [b]. *)
Definition inOrder (sortBy : SortBy) (a b : Feedback) : Prop :=
  match sortBy with
  | recent => created_at b <= created_at a
  | best => (avgRating b <= avgRating a)%Q
  | worst => (avgRating a <= avgRating b)%Q
  end.

(** [r] ties with [x]: the sort key does not tell them apart. *)
Definition tied (sortBy : SortBy) (x r : Feedback) : bool :=
  match sortBy with
  | recent => created_at r =? created_at x
  | best | worst => Qeq_bool (avgRating r) (avgRating x)
  end.

(** An integer that ranks the records as the comparator does: smaller
    first. *)
Definition sortKey (sortBy : SortBy) (r : Feedback) : Z :=
  match sortBy with
  | recent => - created_at r
  | best => - scoreSum r
  | worst => scoreSum r
  end.

(** [a] may stand before [b] under [recent] as specified: later first, and
    of two records of one instant the one with the larger [id] first. *)
Definition recent_before (a b : Feedback) : bool :=
  (created_at b <? created_at a)
  || ((created_at a =? created_at b) && String.leb (id b) (id a)).

(** [a] may stand before [b] under [best] as specified: higher average
    first, and of two records of one average the later one first. *)
Definition best_before (a b : Feedback) : bool :=
  negb (Qle_bool (avgRating a) (avgRating b))
  || (Qeq_bool (avgRating a) (avgRating b) && (created_at b <=? created_at a)).

(** [a] may stand before [b] under [worst] as specified: lower average
    first, and of two records of one average the later one first. *)
Definition worst_before (a b : Feedback) : bool :=
  negb (Qle_bool (avgRating b) (avgRating a))
  || (Qeq_bool (avgRating a) (avgRating b) && (created_at b <=? created_at a)).

Definition specified_before (sortBy : SortBy) : Feedback -> Feedback -> bool :=
  match sortBy with
  | recent => recent_before
  | best => best_before
  | worst => worst_before
  end.

(** Every element may stand before its successor. *)
Fixpoint ordered {A : Type} (before : A -> A -> bool) (l : list A) : bool :=
  match l with
  | [] => true
  | x :: rest =>
      match rest with
      | [] => true
      | y :: _ => before x y && ordered before rest
      end
  end.

End Spec.

(** ** What the components have been given

    The inputs of a sequence of events, to state what the components keep
    of them. *)

Module History.

(** The feedbacks the panel has been given, from [start]: the rows of the
    last fetch that answered with data, behind the feedbacks notified
    since, the latest first. *)
Definition received (events : list AdminPanel.PanelEvent)
    (start : list AdminPanel.Feedback) : list AdminPanel.Feedback :=
  fold_left
    (fun acc ev =>
       match ev with
       | AdminPanel.Fetched (AdminPanel.fetch_data data) => default [] data
       | AdminPanel.Inserted payload_new => payload_new :: acc
       | _ => acc
       end)
    events start.

(** Every value of the form that is not the initial one is the value of
    one of the events: a field that is not empty was typed, a criterion
    that is not 0 was clicked, a comment that is not empty was typed. *)
Definition entered (events : list CustomerForm.FormEvent)
    (s : CustomerForm.FormState) : Prop :=
  let customer := CustomerForm.customer s in
  let ratings := CustomerForm.ratings s in
  (CustomerForm.name customer <> EmptyString ->
   In (CustomerForm.Typed CustomerForm.k_name (CustomerForm.name customer)) events) /\
  (CustomerForm.cpf customer <> EmptyString ->
   In (CustomerForm.Typed CustomerForm.k_cpf (CustomerForm.cpf customer)) events) /\
  (CustomerForm.phone customer <> EmptyString ->
   In (CustomerForm.Typed CustomerForm.k_phone (CustomerForm.phone customer)) events) /\
  (CustomerForm.instagram customer <> EmptyString ->
   In (CustomerForm.Typed CustomerForm.k_instagram (CustomerForm.instagram customer))
      events) /\
  (forall key,
     CustomerForm.rating_get ratings key <> 0 ->
     In (CustomerForm.StarClicked key (CustomerForm.rating_get ratings key)) events) /\
  (CustomerForm.comment ratings <> EmptyString ->
   In (CustomerForm.CommentTyped (CustomerForm.comment ratings)) events).

End History.

(** ** A reader of delimited text

    The usual rules: cells are separated by commas and rows by line feeds;
    a cell that opens with a quote runs to its closing quote, commas and
    line feeds included, and two quotes in a row inside it stand for one
    quote character. *)

Module CSV.
Import AdminPanel.

Inductive Mode : Type := CellStart | Bare | Quoted | QuoteSeen.

(** What is read so far of the text that remains: the cell being read, the
    cells that follow it in its row, the rows after that. *)
Definition Partial : Type := (string * list string * list (list string))%type.

Definition push (c : ascii) (p : Partial) : Partial :=
  let '(cell, cells, rows) := p in (String c cell, cells, rows).

Definition endCell (p : Partial) : Partial :=
  let '(cell, cells, rows) := p in (EmptyString, cell :: cells, rows).

Definition endRow (p : Partial) : Partial :=
  let '(cell, cells, rows) := p in (EmptyString, [], (cell :: cells) :: rows).

Fixpoint read (mode : Mode) (text : string) : Partial :=
  match text with
  | EmptyString => (EmptyString, [], [])
  | String c rest =>
      match mode with
      | Quoted =>
          if Ascii.eqb c quote_char then read QuoteSeen rest
          else push c (read Quoted rest)
      | QuoteSeen =>
          if Ascii.eqb c quote_char then push quote_char (read Quoted rest)
          else if Ascii.eqb c comma_char then endCell (read CellStart rest)
          else if Ascii.eqb c newline_char then endRow (read CellStart rest)
          else push c (read Bare rest)
      | CellStart =>
          if Ascii.eqb c quote_char then read Quoted rest
          else if Ascii.eqb c comma_char then endCell (read CellStart rest)
          else if Ascii.eqb c newline_char then endRow (read CellStart rest)
          else push c (read Bare rest)
      | Bare =>
          if Ascii.eqb c comma_char then endCell (read CellStart rest)
          else if Ascii.eqb c newline_char then endRow (read CellStart rest)
          else push c (read Bare rest)
      end
  end.

(** The rows of a text, each the list of its cells. *)
Definition parse (text : string) : list (list string) :=
  let '(cell, cells, rows) := read CellStart text in (cell :: cells) :: rows.

(** A character that has a meaning for the reader. *)
Definition special (c : ascii) : bool :=
  Ascii.eqb c quote_char || Ascii.eqb c comma_char || Ascii.eqb c newline_char.

(** A text without such characters. *)
Fixpoint plain (s : string) : bool :=
  match s with
  | EmptyString => true
  | String c rest => negb (special c) && plain rest
  end.

(** A text at whose start a cell ends: the end of the text, a comma or a
    line feed. *)
Definition atDelimiter (text : string) : Prop :=
  text = EmptyString \/
  (exists rest, text = String comma_char rest) \/
  (exists rest, text = String newline_char rest).

(** [s] in front of the cell being read. *)
Definition prepend (s : string) (p : Partial) : Partial :=
  let '(cell, cells, rows) := p in ((s ++ cell)%string, cells, rows).

(** The cells [fields] in front of what is read. *)
Fixpoint consCells (fields : list string) (p : Partial) : Partial :=
  match fields with
  | [] => p
  | f :: rest =>
      let '(cell, cells, rows) := consCells rest p in (f, cell :: cells, rows)
  end.

(** The lines of the records, each after a line feed: what the export
    writes after the header line. *)
Fixpoint recordLines (feedbacks : list Feedback) : string :=
  match feedbacks with
  | [] => EmptyString
  | feedback :: rest =>
      String newline_char (JS.join "," (csvRow feedback) ++ recordLines rest)
  end.

(** The cells of a record that the export writes as they are hold no
    comma, no quote and no line feed. *)
Definition plainCustomer (feedback : Feedback) : Prop :=
  plain (nome feedback) = true /\ plain (cpf feedback) = true /\
  plain (telefone feedback) = true /\ plain (instagram feedback) = true.

(** The values a record is exported from, one per column, the numbers and
    the date as the text the export writes for them: what a reader should
    give back for the record's row. *)
Definition fieldValues (feedback : Feedback) : list string :=
  [ nome feedback;
    cpf feedback;
    telefone feedback;
    instagram feedback;
    toLocaleDateString (created_at feedback);
    JS.toString (qualidade_comida feedback);
    JS.toString (atendimento feedback);
    JS.toString (tempo_espera feedback);
    JS.toString (higiene_limpeza feedback);
    JS.toString (custo_beneficio feedback);
    JS.toString (ambiente_conforto feedback);
    default EmptyString (comentario feedback) ].

End CSV.

(** ** Sample records *)

Module Sample.
Import AdminPanel.

(** A feedback whose six scores are all [score]. *)
Definition feedback (id : string) (created_at : Z) (nome cpf : string)
    (score : Z) (comentario : option string) : Feedback :=
  {| id := id; created_at := created_at; nome := nome; cpf := cpf;
     telefone := "(11) 99999-9999"; instagram := "lardo";
     qualidade_comida := score; atendimento := score; tempo_espera := score;
     higiene_limpeza := score; custo_beneficio := score;
     ambiente_conforto := score; comentario := comentario |}.

(** Noon UTC of 1 May 2024, and one minute later. *)
Definition noon : Z := 1714564800000.
Definition minute_later : Z := 1714564860000.

Definition ana : Feedback := feedback "a1" noon "Ana" "111.111.111-11" 5 None.
Definition bruno : Feedback := feedback "b2" noon "Bruno" "222.222.222-22" 1 None.
Definition carla : Feedback := feedback "c3" minute_later "Carla" "333.333.333-33" 3 None.
(** Ana again: a second visit, one minute later, with the same scores. *)
Definition ana_again : Feedback :=
  feedback "d4" minute_later "Ana" "111.111.111-11" 5 None.



(** A customer whose name is written family name first. *)
Definition silva : Feedback :=
  feedback "e5" noon "Silva, Ana" "444.444.444-44" 4 (Some "bom").

(** The form after a customer typed a name and clicked the fourth star of
    the service criterion. *)
Definition form_in_progress : CustomerForm.FormState :=
  CustomerForm.handleRatingChange CustomerForm.k_service 4
    (CustomerForm.handleCustomerChange CustomerForm.k_name "Ana"
       CustomerForm.initial).

(** What a customer does to fill the form in: the four fields, then the
    star [star] of each criterion. *)
Definition filling (name cpf : string) (star : Z) : list CustomerForm.FormEvent :=
  [ CustomerForm.Typed CustomerForm.k_name name;
    CustomerForm.Typed CustomerForm.k_cpf cpf;
    CustomerForm.Typed CustomerForm.k_phone "(11) 99999-9999";
    CustomerForm.Typed CustomerForm.k_instagram "lardo";
    CustomerForm.StarClicked CustomerForm.k_foodQuality star;
    CustomerForm.StarClicked CustomerForm.k_service star;
    CustomerForm.StarClicked CustomerForm.k_waitTime star;
    CustomerForm.StarClicked CustomerForm.k_cleanliness star;
    CustomerForm.StarClicked CustomerForm.k_valueForMoney star;
    CustomerForm.StarClicked CustomerForm.k_ambiance star ].

(** The row the form sends for such a customer. *)
Definition row (name cpf : string) (star : Z) (comentario : option string)
  : CustomerForm.FeedbackInsert :=
  {| CustomerForm.nome := name; CustomerForm.ins_cpf := cpf;
     CustomerForm.telefone := "(11) 99999-9999";
     CustomerForm.ins_instagram := "lardo";
     CustomerForm.qualidade_comida := star; CustomerForm.atendimento := star;
     CustomerForm.tempo_espera := star; CustomerForm.higiene_limpeza := star;
     CustomerForm.custo_beneficio := star; CustomerForm.ambiente_conforto := star;
     CustomerForm.comentario := comentario |}.

End Sample.

(** * Properties *)

(** ** Sums, averages and the order of the records *)

Module Averages.
Import AdminPanel.

Lemma criterionSum_Permutation (score : Feedback -> Z) (l l' : list Feedback) :
  Permutation l l' -> Spec.criterionSum score l = Spec.criterionSum score l'.
Proof.
  induction 1 as [ | x l l' _ IH | x y l | l l' l'' _ IH1 _ IH2 ]; simpl.
  - reflexivity.
  - now rewrite IH.
  - lia.
  - now rewrite IH1.
Qed.

(** The [reduce] of [calculateAverages] adds, to each field of its
    accumulator, the sum of that criterion. *)
Lemma totals_fold (l : list Feedback) (acc : Totals) :
  fold_left totals_step l acc =
  {| tot_qualidade_comida := tot_qualidade_comida acc + Spec.criterionSum qualidade_comida l;
     tot_atendimento := tot_atendimento acc + Spec.criterionSum atendimento l;
     tot_tempo_espera := tot_tempo_espera acc + Spec.criterionSum tempo_espera l;
     tot_higiene_limpeza := tot_higiene_limpeza acc + Spec.criterionSum higiene_limpeza l;
     tot_custo_beneficio := tot_custo_beneficio acc + Spec.criterionSum custo_beneficio l;
     tot_ambiente_conforto := tot_ambiente_conforto acc + Spec.criterionSum ambiente_conforto l |}.
Proof.
  revert acc. induction l as [ | x l IH ]; intros acc; simpl.
  - destruct acc; simpl. f_equal; lia.
  - rewrite IH. unfold totals_step; simpl. f_equal; lia.
Qed.

Lemma totals_Permutation (l l' : list Feedback) :
  Permutation l l' ->
  fold_left totals_step l totals_init = fold_left totals_step l' totals_init.
Proof.
  intros H. rewrite !totals_fold.
  now rewrite !(criterionSum_Permutation _ l l' H).
Qed.

Lemma calculateAverages_Permutation (l l' : list Feedback) :
  Permutation l l' -> calculateAverages l = calculateAverages l'.
Proof.
  intros H. unfold calculateAverages.
  rewrite (Permutation_length H), (totals_Permutation l l' H). reflexivity.
Qed.

(** For a list that is not empty, the six entries of [calculateAverages]. *)
Lemma calculateAverages_nonempty (l : list Feedback) :
  l <> [] ->
  calculateAverages l =
  [ ("qualidade_comida"%string, Spec.perCriterionAverage qualidade_comida l);
    ("atendimento"%string, Spec.perCriterionAverage atendimento l);
    ("tempo_espera"%string, Spec.perCriterionAverage tempo_espera l);
    ("higiene_limpeza"%string, Spec.perCriterionAverage higiene_limpeza l);
    ("custo_beneficio"%string, Spec.perCriterionAverage custo_beneficio l);
    ("ambiente_conforto"%string, Spec.perCriterionAverage ambiente_conforto l) ].
Proof.
  intros Hl. unfold calculateAverages.
  destruct l as [ | x l ]; [ congruence | ].
  change (length (x :: l) =? 0)%nat with false; cbv iota.
  rewrite totals_fold. reflexivity.
Qed.




Lemma overallAverage_nonempty (l : list Feedback) :
  l <> [] ->
  (overallAverage l ==
   (Spec.perCriterionAverage qualidade_comida l
    + Spec.perCriterionAverage atendimento l
    + Spec.perCriterionAverage tempo_espera l
    + Spec.perCriterionAverage higiene_limpeza l
    + Spec.perCriterionAverage custo_beneficio l
    + Spec.perCriterionAverage ambiente_conforto l) / 6)%Q.
Proof.
  intros Hl. unfold overallAverage.
  rewrite (calculateAverages_nonempty l Hl). cbn [Object_values map snd length Nat.eqb fold_left].
  change (inject_Z (Z.of_nat 6)) with 6%Q.
  rewrite !Qplus_0_l. reflexivity.
Qed.



End Averages.

(** ** The histogram *)

Module Histogram.
Import AdminPanel.

(** [Math.round] of a sixth of an integer, by integer division. *)
Lemma Math_round_sixth (s : Z) : JS.Math_round (inject_Z s / 6) = (s + 3) / 6.
Proof.
  unfold JS.Math_round.
  assert (E : (inject_Z s / 6 + (1 # 2) == (s + 3) # 6)%Q).
  { unfold Qeq, Qplus, Qdiv, Qmult, Qinv, inject_Z; simpl. lia. }
  rewrite (Qfloor_comp _ _ E). reflexivity.
Qed.

Lemma roundedRating_div (r : Feedback) : roundedRating r = (scoreSum r + 3) / 6.
Proof. apply Math_round_sixth. Qed.

(** The rounded average is the integer nearest to the average, the upper
    one of two that are equally near. *)
Lemma roundedRating_nearest (r : Feedback) :
  (inject_Z (roundedRating r) - (1 # 2) <= avgRating r)%Q /\
  (avgRating r < inject_Z (roundedRating r) + (1 # 2))%Q.
Proof.
  rewrite roundedRating_div. unfold avgRating.
  set (s := scoreSum r). 
  assert (H : 6 * ((s + 3) / 6) <= s + 3 < 6 * ((s + 3) / 6) + 6)
    by (Z.to_euclidean_division_equations; lia).
  set (k := (s + 3) / 6) in *.
  unfold Qle, Qlt, Qminus, Qplus, Qopp, Qdiv, Qmult, Qinv, inject_Z; simpl. lia.
Qed.

Lemma roundedRating_bounds (r : Feedback) :
  Spec.validScores r -> 1 <= roundedRating r <= 5.
Proof.
  unfold Spec.validScores. intros Hv. rewrite roundedRating_div. unfold scoreSum.
  Z.to_euclidean_division_equations; lia.
Qed.

Lemma buckets_ext (c c' : Z -> Z) :
  (forall k, 1 <= k <= 5 -> c k = c' k) -> Spec.buckets c = Spec.buckets c'.
Proof.
  intros H. unfold Spec.buckets; simpl.
  rewrite !H by lia. reflexivity.
Qed.

Lemma distribution_init_buckets : distribution_init = Spec.buckets (fun _ => 0).
Proof. reflexivity. Qed.

(** One record changes the buckets by one, in the bucket of its rounded
    average, if there is such a bucket. *)
Lemma distribution_step_buckets (c : Z -> Z) (r : Feedback) :
  distribution_step (Spec.buckets c) r =
  Spec.buckets (fun k => if k =? roundedRating r then c k + 1 else c k).
Proof.
  unfold distribution_step.
  remember (roundedRating r) as a eqn:Ea. clear Ea.
  destruct ((1 <=? a) && (a <=? 5)) eqn:G.
  - assert (Ha : a = 1 \/ a = 2 \/ a = 3 \/ a = 4 \/ a = 5) by lia.
    destruct Ha as [-> | [-> | [-> | [-> | ->]]]]; reflexivity.
  - apply buckets_ext. intros k Hk.
    destruct (k =? a) eqn:E; [ lia | reflexivity ].
Qed.

Lemma histogram_cons (k : Z) (r : Feedback) (l : list Feedback) :
  Spec.histogram k (r :: l) =
  (if k =? roundedRating r then 1 else 0) + Spec.histogram k l.
Proof.
  unfold Spec.histogram; simpl. rewrite (Z.eqb_sym k).
  destruct (roundedRating r =? k); simpl length; lia.
Qed.

Lemma distribution_fold (l : list Feedback) (c : Z -> Z) :
  fold_left distribution_step l (Spec.buckets c) =
  Spec.buckets (fun k => c k + Spec.histogram k l).
Proof.
  revert c. induction l as [ | r l IH ]; intros c; simpl fold_left.
  - apply buckets_ext. intros k _. unfold Spec.histogram; simpl. lia.
  - rewrite distribution_step_buckets, IH.
    apply buckets_ext. intros k _. rewrite histogram_cons.
    destruct (k =? roundedRating r); lia.
Qed.

Lemma getRatingDistribution_histogram (l : list Feedback) :
  getRatingDistribution l = Spec.buckets (fun k => Spec.histogram k l).
Proof.
  unfold getRatingDistribution. rewrite distribution_init_buckets, distribution_fold.
  apply buckets_ext. intros; lia.
Qed.

Lemma histogram_Permutation (k : Z) (l l' : list Feedback) :
  Permutation l l' -> Spec.histogram k l = Spec.histogram k l'.
Proof.
  induction 1 as [ | x l l' _ IH | x y l | l l' l'' _ IH1 _ IH2 ].
  - reflexivity.
  - rewrite !histogram_cons. lia.
  - rewrite !histogram_cons. lia.
  - lia.
Qed.

Lemma getRatingDistribution_Permutation (l l' : list Feedback) :
  Permutation l l' -> getRatingDistribution l = getRatingDistribution l'.
Proof.
  intros H. rewrite !getRatingDistribution_histogram.
  apply buckets_ext. intros k _. now apply histogram_Permutation.
Qed.

(** C3.  The bucket rated [k] holds the number of records whose rounded
    average is [k]; the rounded average is the integer nearest to the mean
    of the six scores, a half rounding up; one more record adds one to the
    bucket of its rounded average and leaves the other buckets as they
    are, and for scores from 1 to 5 that bucket is one of the five; three
    records of constant scores 5, 1 and 3 give one each in the buckets 1,
    3 and 5. *)
Theorem histogram_buckets_by_rounded_average (l : list Feedback) :
  getRatingDistribution l = Spec.buckets (fun k => Spec.histogram k l) /\
  (forall r,
     (inject_Z (roundedRating r) - (1 # 2) <= avgRating r)%Q /\
     (avgRating r < inject_Z (roundedRating r) + (1 # 2))%Q) /\
  (forall r,
     getRatingDistribution (l ++ [r]) =
     Spec.buckets (fun k => if k =? roundedRating r
                            then Spec.histogram k l + 1 else Spec.histogram k l)) /\
  (forall r, Spec.validScores r -> 1 <= roundedRating r <= 5) /\
  (forall a b c,
     Spec.constantScores 5 a -> Spec.constantScores 1 b -> Spec.constantScores 3 c ->
     getRatingDistribution [a; b; c] =
     [ {| rating := 1; count := 1 |}; {| rating := 2; count := 0 |};
       {| rating := 3; count := 1 |}; {| rating := 4; count := 0 |};
       {| rating := 5; count := 1 |} ]).
Proof.
  split; [ apply getRatingDistribution_histogram | ].
  split; [ apply roundedRating_nearest | ].
  split; [ | split; [ apply roundedRating_bounds | ] ].
  - intros r. unfold getRatingDistribution. rewrite fold_left_app. simpl fold_left.
    fold (getRatingDistribution l).
    rewrite getRatingDistribution_histogram. apply distribution_step_buckets.
  - intros a b c (A1 & A2 & A3 & A4 & A5 & A6) (B1 & B2 & B3 & B4 & B5 & B6)
      (C1 & C2 & C3 & C4 & C5 & C6).
    rewrite getRatingDistribution_histogram.
    unfold Spec.buckets, Spec.histogram; simpl List.filter.
    rewrite !roundedRating_div. unfold scoreSum.
    rewrite A1, A2, A3, A4, A5, A6, B1, B2, B3, B4, B5, B6, C1, C2, C3, C4, C5, C6.
    reflexivity.
Qed.

Lemma histogram_buckets_by_rounded_average_witness :
  getRatingDistribution [Sample.ana; Sample.bruno; Sample.carla] =
  [ {| rating := 1; count := 1 |}; {| rating := 2; count := 0 |};
    {| rating := 3; count := 1 |}; {| rating := 4; count := 0 |};
    {| rating := 5; count := 1 |} ].
Proof.
  apply (proj2 (proj2 (proj2 (proj2 (histogram_buckets_by_rounded_average []))))
           Sample.ana Sample.bruno Sample.carla);
    repeat split; reflexivity.
Defined.

Lemma histogram_total (l : list Feedback) :
  Forall (fun r => 1 <= roundedRating r <= 5) l ->
  Spec.histogram 1 l + Spec.histogram 2 l + Spec.histogram 3 l
  + Spec.histogram 4 l + Spec.histogram 5 l = Z.of_nat (length l).
Proof.
  induction 1 as [ | r l Hr _ IH ].
  - reflexivity.
  - rewrite !histogram_cons. simpl length.
    assert (Ha : roundedRating r = 1 \/ roundedRating r = 2 \/ roundedRating r = 3
                 \/ roundedRating r = 4 \/ roundedRating r = 5) by lia.
    destruct Ha as [-> | [-> | [-> | [-> | ->]]]]; simpl; lia.
Qed.

(** C10.  For records whose scores are all from 1 to 5 the rounded average
    of every record is from 1 to 5, so the guard of the histogram lets
    every record through to the increment, and the five counts add up to
    the number of records. *)
Theorem histogram_keeps_every_valid_record (l : list Feedback) :
  Forall Spec.validScores l ->
  Forall (fun r => 1 <= roundedRating r <= 5) l /\
  Forall (fun r => forall distribution,
            distribution_step distribution r =
            alter bump (Z.to_nat (roundedRating r - 1)) distribution) l /\
  fold_right Z.add 0 (map count (getRatingDistribution l)) = Z.of_nat (length l).
Proof.
  intros Hv.
  assert (Hb : Forall (fun r => 1 <= roundedRating r <= 5) l).
  { eapply List.Forall_impl; [ | exact Hv ]. intros r. apply roundedRating_bounds. }
  split; [ exact Hb | split ].
  - eapply List.Forall_impl; [ | exact Hb ]. intros r Hr distribution.
    cbv beta in Hr. unfold distribution_step. cbv zeta.
    destruct (1 <=? roundedRating r) eqn:E1; [ | lia ].
    destruct (roundedRating r <=? 5) eqn:E2; [ reflexivity | lia ].
  - rewrite getRatingDistribution_histogram. unfold Spec.buckets; simpl.
    rewrite <- (histogram_total l Hb). lia.
Qed.

Lemma histogram_keeps_every_valid_record_witness :
  fold_right Z.add 0
    (map count (getRatingDistribution [Sample.ana; Sample.bruno; Sample.carla])) = 3.
Proof.
  apply (histogram_keeps_every_valid_record [Sample.ana; Sample.bruno; Sample.carla]).
  repeat constructor; simpl; lia.
Defined.

End Histogram.

(** ** Doubles of integers *)

Module DoubleFacts.
Import JS.Double.








(** Case analysis on an integer between two literals. *)
Ltac enumerate x lo hi :=
  let c := eval compute in (lo <=? hi) in
  lazymatch c with
  | true =>
      destruct (Z.eq_dec x lo) as [ -> | ? ];
      [ | let lo' := eval compute in (lo + 1) in enumerate x lo' hi ]
  | false => exfalso; lia
  end.

(** The rounded average of six scores from 1 to 5 is the same in doubles
    as on the exact quotient. *)
Lemma round_sixth_in_doubles (s : Z) :
  6 <= s <= 30 ->
  Math_round (div (of_Z s) (of_Z 6)) = of_Z (JS.Math_round (inject_Z s / 6)).
Proof.
  intros Hs. enumerate s 6 30; vm_compute; reflexivity.
Qed.

(** So is the comparison of the average with a minimum from 1 to 5. *)
Lemma minimum_sixth_in_doubles (s k : Z) :
  6 <= s <= 30 -> 1 <= k <= 5 ->
  leb (of_Z k) (div (of_Z s) (of_Z 6)) = Qle_bool (inject_Z k) (inject_Z s / 6).
Proof.
  intros Hs Hk. enumerate k 1 5; enumerate s 6 30; vm_compute; reflexivity.
Qed.

(** And so is the sign of the difference of two averages. *)
Lemma compare_sixths_in_doubles (a b : Z) :
  6 <= a <= 30 -> 6 <= b <= 30 ->
  leb (sub (div (of_Z b) (of_Z 6)) (div (of_Z a) (of_Z 6))) (of_Z 0) =
  Qle_bool (inject_Z b / 6 - inject_Z a / 6) 0.
Proof.
  intros Ha Hb. enumerate a 6 30; enumerate b 6 30; vm_compute; reflexivity.
Qed.

End DoubleFacts.

(** ** Recurrent customers *)

Module Recurrence.
Import AdminPanel.

Lemma occurrences_cons (c : string) (r : Feedback) (l : list Feedback) :
  Spec.occurrences c (r :: l) =
  ((if String.eqb (cpf r) c then 1 else 0) + Spec.occurrences c l)%nat.
Proof.
  unfold Spec.occurrences; simpl. now destruct (String.eqb (cpf r) c).
Qed.

Lemma occurrences_Permutation (c : string) (l l' : list Feedback) :
  Permutation l l' -> Spec.occurrences c l = Spec.occurrences c l'.
Proof.
  induction 1 as [ | x l l' _ IH | x y l | l l' l'' _ IH1 _ IH2 ].
  - reflexivity.
  - rewrite !occurrences_cons. lia.
  - rewrite !occurrences_cons. lia.
  - lia.
Qed.


(** What the counting [reduce] leaves at a key: the count it found there
    plus the number of records of that [cpf]. *)
Lemma cpfCounts_fold_lookup (l : list Feedback) (acc : gmap string Z) (c : string) :
  fold_left cpfCounts_step l acc !! c =
  if (Spec.occurrences c l =? 0)%nat then acc !! c
  else Some (default 0 (acc !! c) + Z.of_nat (Spec.occurrences c l)).
Proof.
  revert acc. induction l as [ | r l IH ]; intros acc.
  - reflexivity.
  - simpl fold_left. rewrite IH, occurrences_cons. unfold cpfCounts_step.
    destruct (String.eqb (cpf r) c) eqn:E.
    + apply String.eqb_eq in E. subst c. rewrite lookup_insert_eq. simpl default.
      destruct (Spec.occurrences (cpf r) l) as [ | n ] eqn:En; simpl Nat.eqb; cbv iota.
      * f_equal; lia.
      * f_equal; lia.
    + apply String.eqb_neq in E. rewrite lookup_insert_ne by exact E.
      reflexivity.
Qed.

Lemma cpfCounts_lookup (l : list Feedback) (c : string) :
  cpfCounts l !! c =
  if (Spec.occurrences c l =? 0)%nat then None
  else Some (Z.of_nat (Spec.occurrences c l)).
Proof.
  unfold cpfCounts. rewrite cpfCounts_fold_lookup, lookup_empty. reflexivity.
Qed.

Lemma cpfCounts_Permutation (l l' : list Feedback) :
  Permutation l l' -> cpfCounts l = cpfCounts l'.
Proof.
  intros H. apply map_eq. intros c.
  now rewrite !cpfCounts_lookup, (occurrences_Permutation c l l' H).
Qed.

Lemma getRecurrentCustomers_Permutation (l l' : list Feedback) :
  Permutation l l' -> getRecurrentCustomers l = getRecurrentCustomers l'.
Proof.
  intros H. unfold getRecurrentCustomers. now rewrite (cpfCounts_Permutation l l' H).
Qed.














End Recurrence.

(** ** The order of the records does not matter *)

Module Commutativity.
Import AdminPanel.

(** C1.  Two lists with the same records, in whatever order, give the same
    six per-criterion averages, the same overall average, the same five
    bucket counts and the same percentage of recurrent customers. *)
Theorem statistics_invariant_under_permutation (l l' : list Feedback) :
  Permutation l l' ->
  calculateAverages l = calculateAverages l' /\
  overallAverage l = overallAverage l' /\
  getRatingDistribution l = getRatingDistribution l' /\
  getRecurrentCustomers l = getRecurrentCustomers l'.
Proof.
  intros H. repeat split.
  - now apply Averages.calculateAverages_Permutation.
  - unfold overallAverage. now rewrite (Averages.calculateAverages_Permutation l l' H).
  - now apply Histogram.getRatingDistribution_Permutation.
  - now apply Recurrence.getRecurrentCustomers_Permutation.
Qed.

Lemma statistics_invariant_under_permutation_witness :
  calculateAverages [Sample.ana; Sample.bruno; Sample.carla] =
    calculateAverages [Sample.carla; Sample.ana; Sample.bruno] /\
  overallAverage [Sample.ana; Sample.bruno; Sample.carla] =
    overallAverage [Sample.carla; Sample.ana; Sample.bruno] /\
  getRatingDistribution [Sample.ana; Sample.bruno; Sample.carla] =
    getRatingDistribution [Sample.carla; Sample.ana; Sample.bruno] /\
  getRecurrentCustomers [Sample.ana; Sample.bruno; Sample.carla] =
    getRecurrentCustomers [Sample.carla; Sample.ana; Sample.bruno].
Proof.
  apply statistics_invariant_under_permutation.
  apply perm_trans with (l' := [Sample.ana; Sample.carla; Sample.bruno]).
  - apply perm_skip. apply perm_swap.
  - apply perm_swap.
Defined.

End Commutativity.

(** ** Array.prototype.sort *)

Module SortFacts.

Section ByKey.
Context {A : Type} (comparefn : A -> A -> Q) (key : A -> Z).
Hypothesis comparefn_key :
  forall a b, Qle_bool (comparefn a b) 0 = (key a <=? key b).

Lemma sort_insert_Permutation (x : A) (l : list A) :
  Permutation (JS.sort_insert comparefn x l) (x :: l).
Proof.
  induction l as [ | y l IH ]; simpl.
  - reflexivity.
  - destruct (Qle_bool (comparefn x y) 0).
    + reflexivity.
    + rewrite IH. apply perm_swap.
Qed.

Lemma sort_Permutation (l : list A) : Permutation (JS.sort comparefn l) l.
Proof.
  induction l as [ | x l IH ]; simpl.
  - reflexivity.
  - rewrite sort_insert_Permutation. now apply perm_skip.
Qed.

Lemma sort_insert_sorted (x : A) (l : list A) :
  StronglySorted (fun a b => key a <= key b) l ->
  StronglySorted (fun a b => key a <= key b) (JS.sort_insert comparefn x l).
Proof.
  induction 1 as [ | y l Hl IH Hy ]; simpl.
  - constructor; constructor.
  - rewrite comparefn_key. destruct (key x <=? key y) eqn:E.
    + apply Z.leb_le in E. constructor.
      * now constructor.
      * constructor; [ exact E | ].
        eapply List.Forall_impl; [ | exact Hy ]. intros b Hb; simpl in *; lia.
    + apply Z.leb_gt in E. constructor; [ exact IH | ].
      apply (Permutation_Forall (Permutation_sym (sort_insert_Permutation x l))).
      constructor; [ lia | exact Hy ].
Qed.

Lemma sort_sorted (l : list A) :
  StronglySorted (fun a b => key a <= key b) (JS.sort comparefn l).
Proof.
  induction l as [ | x l IH ]; simpl.
  - constructor.
  - now apply sort_insert_sorted.
Qed.

(** Insertion puts [x] before every element of its own key. *)
Lemma sort_insert_stable (v : Z) (x : A) (l : list A) :
  List.filter (fun a => key a =? v) (JS.sort_insert comparefn x l) =
  List.filter (fun a => key a =? v) (x :: l).
Proof.
  induction l as [ | y l IH ]; simpl.
  - reflexivity.
  - rewrite comparefn_key. destruct (key x <=? key y) eqn:E; simpl.
    + reflexivity.
    + apply Z.leb_gt in E. rewrite IH. simpl.
      destruct (key y =? v) eqn:Ey; destruct (key x =? v) eqn:Ex;
        try reflexivity. lia.
Qed.

Lemma sort_stable (v : Z) (l : list A) :
  List.filter (fun a => key a =? v) (JS.sort comparefn l) =
  List.filter (fun a => key a =? v) l.
Proof.
  induction l as [ | x l IH ]; simpl.
  - reflexivity.
  - rewrite sort_insert_stable. simpl. now rewrite IH.
Qed.
End ByKey.

End SortFacts.

(** ** The filtered and sorted projection *)

Module Projection.
Import AdminPanel.

Lemma avgRating_le (a b : Feedback) :
  (avgRating a <= avgRating b)%Q <-> scoreSum a <= scoreSum b.
Proof.
  unfold avgRating, Qle, Qdiv, Qmult, Qinv, inject_Z; simpl. lia.
Qed.

Lemma avgRating_eq (a b : Feedback) :
  (avgRating a == avgRating b)%Q <-> scoreSum a = scoreSum b.
Proof.
  unfold avgRating, Qeq, Qdiv, Qmult, Qinv, inject_Z; simpl. lia.
Qed.

(** The comparator orders the records as their integer key does. *)
Lemma compareFeedbacks_key (sortBy : SortBy) (a b : Feedback) :
  Qle_bool (compareFeedbacks sortBy a b) 0 =
  (Spec.sortKey sortBy a <=? Spec.sortKey sortBy b).
Proof.
  apply eq_true_iff_eq. rewrite Qle_bool_iff, Z.leb_le.
  destruct sortBy; simpl.
  - unfold Qle, inject_Z; simpl. lia.
  - pose proof (avgRating_le b a) as L. split; intros H.
    + assert (H' : (avgRating b <= avgRating a)%Q) by lra.
      apply L in H'. lia.
    + assert (H' : scoreSum b <= scoreSum a) by lia.
      apply L in H'. lra.
  - pose proof (avgRating_le a b) as L. split; intros H.
    + assert (H' : (avgRating a <= avgRating b)%Q) by lra.
      apply L in H'. lia.
    + assert (H' : scoreSum a <= scoreSum b) by lia.
      apply L in H'. lra.
Qed.

Lemma sortKey_inOrder (sortBy : SortBy) (a b : Feedback) :
  Spec.sortKey sortBy a <= Spec.sortKey sortBy b -> Spec.inOrder sortBy a b.
Proof.
  destruct sortBy; simpl; intros H.
  - lia.
  - apply avgRating_le. lia.
  - apply avgRating_le. lia.
Qed.

Lemma tied_sortKey (sortBy : SortBy) (x r : Feedback) :
  Spec.tied sortBy x r = (Spec.sortKey sortBy r =? Spec.sortKey sortBy x).
Proof.
  apply eq_true_iff_eq. rewrite Z.eqb_eq.
  destruct sortBy; simpl.
  - rewrite Z.eqb_eq. lia.
  - rewrite Qeq_bool_iff, avgRating_eq. lia.
  - rewrite Qeq_bool_iff, avgRating_eq. lia.
Qed.

Lemma filter_ext_bool {A : Type} (p q : A -> bool) (l : list A) :
  (forall a, p a = q a) -> List.filter p l = List.filter q l.
Proof.
  intros H. induction l as [ | a l IH ]; simpl; [ reflexivity | ].
  now rewrite H, IH.
Qed.

(** C5, amended.  The projection holds the records that pass the filter,
    each as often as the filter lets it through; under [recent] no record
    stands before a later one, under [best] none before one of higher
    average, under [worst] none before one of lower average; and records
    that tie, in instant under [recent] and in average under [best] and
    [worst], stand in the order they have in the array that is sorted. *)
Theorem projection_sorted_ties_in_input_order
    (sortBy : SortBy) (minRatingFilter : MinRatingFilter)
    (feedbacks : list Feedback) :
  Permutation (fst (filteredAndSortedFeedbacks sortBy minRatingFilter feedbacks))
              (filtered minRatingFilter feedbacks) /\
  StronglySorted (Spec.inOrder sortBy)
    (fst (filteredAndSortedFeedbacks sortBy minRatingFilter feedbacks)) /\
  (forall x,
     List.filter (Spec.tied sortBy x)
       (fst (filteredAndSortedFeedbacks sortBy minRatingFilter feedbacks)) =
     List.filter (Spec.tied sortBy x) (filtered minRatingFilter feedbacks)).
Proof.
  unfold filteredAndSortedFeedbacks; simpl fst.
  split; [ apply SortFacts.sort_Permutation | split ].
  - pose proof (SortFacts.sort_sorted _ _ (compareFeedbacks_key sortBy)
                  (filtered minRatingFilter feedbacks)) as H.
    induction H as [ | a l Hl IH Ha ]; constructor; [ exact IH | ].
    eapply List.Forall_impl; [ | exact Ha ]. intros b. apply sortKey_inOrder.
  - intros x.
    rewrite (filter_ext_bool _ _ _ (tied_sortKey sortBy x)).
    rewrite (filter_ext_bool _ _ (filtered minRatingFilter feedbacks)
               (tied_sortKey sortBy x)).
    apply (SortFacts.sort_stable _ _ (compareFeedbacks_key sortBy)).
Qed.

(** C5 as stated fails where two records tie.  Two records of one instant
    are shown in their input order, the smaller [id] first; two records of
    one average are shown in their input order, the earlier first, under
    [best] and under [worst]. *)
Lemma ties_are_not_broken :
  map id (fst (filteredAndSortedFeedbacks recent filter_all
                 [Sample.ana; Sample.bruno])) = ["a1"; "b2"]%string /\
  Spec.ordered (Spec.specified_before recent)
    (fst (filteredAndSortedFeedbacks recent filter_all
            [Sample.ana; Sample.bruno])) = false /\
  map id (fst (filteredAndSortedFeedbacks best filter_all
                 [Sample.ana; Sample.ana_again])) = ["a1"; "d4"]%string /\
  Spec.ordered (Spec.specified_before best)
    (fst (filteredAndSortedFeedbacks best filter_all
            [Sample.ana; Sample.ana_again])) = false /\
  Spec.ordered (Spec.specified_before worst)
    (fst (filteredAndSortedFeedbacks worst filter_all
            [Sample.ana; Sample.ana_again])) = false.
Proof. repeat split; vm_compute; reflexivity. Qed.

Lemma avgRating_five (r : Feedback) :
  Spec.validScores r -> (5 <= avgRating r)%Q ->
  (avgRating r == 5)%Q /\ Spec.constantScores 5 r.
Proof.
  unfold Spec.validScores, Spec.constantScores. intros Hv H5.
  assert (Hs : 30 <= scoreSum r).
  { revert H5. unfold avgRating, Qle, Qdiv, Qmult, Qinv, inject_Z; simpl. lia. }
  unfold scoreSum in Hs. split.
  - unfold avgRating, scoreSum, Qeq, Qdiv, Qmult, Qinv, inject_Z; simpl. lia.
  - lia.
Qed.

(** C6.  With the minimum [k] the projection holds exactly the records
    whose unrounded average of the six scores is at least [k], each as
    often as it occurs among the feedbacks; with the minimum 5 a record
    with scores from 1 to 5 is shown only if its average is exactly 5,
    that is, if its six scores are all 5. *)
Theorem min_rating_filter_keeps_exactly
    (sortBy : SortBy) (k : Z) (feedbacks : list Feedback) :
  Permutation (fst (filteredAndSortedFeedbacks sortBy (filter_min k) feedbacks))
    (List.filter (fun r => Qle_bool (inject_Z k) (inject_Z (scoreSum r) / 6))
                 feedbacks) /\
  (forall r,
     In r (fst (filteredAndSortedFeedbacks sortBy (filter_min k) feedbacks)) <->
     In r feedbacks /\ (inject_Z k <= avgRating r)%Q) /\
  (forall r,
     Spec.validScores r ->
     In r (fst (filteredAndSortedFeedbacks sortBy (filter_min 5) feedbacks)) ->
     (avgRating r == 5)%Q /\ Spec.constantScores 5 r).
Proof.
  assert (Hin : forall k' r,
             In r (fst (filteredAndSortedFeedbacks sortBy (filter_min k') feedbacks)) <->
             In r feedbacks /\ (inject_Z k' <= avgRating r)%Q).
  { intros k' r. unfold filteredAndSortedFeedbacks; simpl fst.
    split.
    - intros H.
      apply (Permutation_in _ (SortFacts.sort_Permutation _ _)) in H.
      simpl in H. apply filter_In in H. destruct H as [H1 H2].
      split; [ exact H1 | ]. now apply Qle_bool_iff.
    - intros [H1 H2].
      apply (Permutation_in _ (Permutation_sym (SortFacts.sort_Permutation _ _))).
      simpl. apply filter_In. split; [ exact H1 | ]. now apply Qle_bool_iff. }
  split; [ | split ].
  - unfold filteredAndSortedFeedbacks; simpl fst. apply SortFacts.sort_Permutation.
  - apply Hin.
  - intros r Hv H. apply Hin in H. destruct H as [_ H].
    now apply avgRating_five.
Qed.

Lemma min_rating_filter_keeps_exactly_witness :
  (avgRating Sample.ana == 5)%Q /\ Spec.constantScores 5 Sample.ana.
Proof.
  apply (proj2 (proj2 (min_rating_filter_keeps_exactly best 5
                         [Sample.bruno; Sample.ana; Sample.carla])) Sample.ana).
  - unfold Spec.validScores; simpl; lia.
  - vm_compute. left. reflexivity.
Defined.

Lemma StronglySorted_filter {A : Type} (R : A -> A -> Prop) (p : A -> bool) (l : list A) :
  StronglySorted R l -> StronglySorted R (List.filter p l).
Proof.
  induction 1 as [ | a l Hl IH Ha ]; simpl.
  - constructor.
  - destruct (p a); [ | exact IH ].
    constructor; [ exact IH | ].
    apply List.Forall_forall. intros b Hb. apply filter_In in Hb.
    rewrite List.Forall_forall in Ha. now apply Ha.
Qed.

(** Sorted by a key, and sorted by [C] inside each class of equal keys, is
    sorted by the key first and by [C] among equal keys. *)
Lemma sorted_by_key_then {A : Type} (key : A -> Z) (C : A -> A -> Prop) (l : list A) :
  StronglySorted (fun a b => key a <= key b) l ->
  (forall v, StronglySorted C (List.filter (fun a => key a =? v) l)) ->
  StronglySorted (fun a b => key a < key b \/ (key a = key b /\ C a b)) l.
Proof.
  induction 1 as [ | a l Hl IH Ha ]; intros Hties.
  - constructor.
  - constructor.
    + apply IH. intros v. specialize (Hties v). simpl in Hties.
      destruct (key a =? v); [ now inversion Hties | exact Hties ].
    + specialize (Hties (key a)). simpl in Hties. rewrite Z.eqb_refl in Hties.
      inversion Hties as [ | x xs _ Hfa ]; subst.
      apply List.Forall_forall. intros b Hb.
      rewrite List.Forall_forall in Ha. specialize (Ha b Hb).
      destruct (Z.eq_dec (key a) (key b)) as [ E | E ]; [ right | left; lia ].
      split; [ exact E | ].
      rewrite List.Forall_forall in Hfa. apply Hfa.
      apply filter_In. split; [ exact Hb | ]. apply Z.eqb_eq. now symmetry.
Qed.

(** X5.  When the feedbacks are in descending order of [created_at], as
    they are fetched, the projection under [best] and under [worst] is in
    the order specified: by average, and among records of one average
    the later one first. *)
Theorem best_and_worst_ties_follow_the_input
    (sortBy : SortBy) (minRatingFilter : MinRatingFilter)
    (feedbacks : list Feedback) :
  sortBy <> recent ->
  StronglySorted (fun a b => created_at b <= created_at a) feedbacks ->
  StronglySorted (fun a b => Spec.specified_before sortBy a b = true)
    (fst (filteredAndSortedFeedbacks sortBy minRatingFilter feedbacks)).
Proof.
  intros Hs Hin. unfold filteredAndSortedFeedbacks; simpl fst.
  assert (Hf : StronglySorted (fun a b => created_at b <= created_at a)
                 (filtered minRatingFilter feedbacks)).
  { destruct minRatingFilter; simpl; [ exact Hin | now apply StronglySorted_filter ]. }
  pose proof (sorted_by_key_then (Spec.sortKey sortBy)
                (fun a b => created_at b <= created_at a)
                (JS.sort (compareFeedbacks sortBy) (filtered minRatingFilter feedbacks))
                (SortFacts.sort_sorted _ _ (compareFeedbacks_key sortBy) _)) as H.
  assert (Hlex : StronglySorted
            (fun a b => Spec.sortKey sortBy a < Spec.sortKey sortBy b \/
                        (Spec.sortKey sortBy a = Spec.sortKey sortBy b /\
                         created_at b <= created_at a))
            (JS.sort (compareFeedbacks sortBy) (filtered minRatingFilter feedbacks))).
  { apply H. intros v.
    rewrite (SortFacts.sort_stable _ _ (compareFeedbacks_key sortBy)).
    now apply StronglySorted_filter. }
  clear H.
  induction Hlex as [ | a l Hl IH Ha ]; constructor; [ exact IH | ].
  eapply List.Forall_impl; [ | exact Ha ]. intros b Hb. cbv beta in Hb.
  destruct sortBy; [ congruence | | ]; simpl in *.
  - unfold Spec.best_before. apply orb_true_iff.
    destruct Hb as [ Hlt | [ Heq Hc ] ].
    + left. apply negb_true_iff. apply not_true_iff_false. intros Hle.
      apply Qle_bool_iff, avgRating_le in Hle. lia.
    + right. apply andb_true_iff. split.
      * apply Qeq_bool_iff, avgRating_eq. lia.
      * now apply Z.leb_le.
  - unfold Spec.worst_before. apply orb_true_iff.
    destruct Hb as [ Hlt | [ Heq Hc ] ].
    + left. apply negb_true_iff. apply not_true_iff_false. intros Hle.
      apply Qle_bool_iff, avgRating_le in Hle. lia.
    + right. apply andb_true_iff. split.
      * apply Qeq_bool_iff, avgRating_eq. lia.
      * now apply Z.leb_le.
Qed.

Lemma best_and_worst_ties_follow_the_input_witness :
  StronglySorted (fun a b => Spec.specified_before best a b = true)
    (fst (filteredAndSortedFeedbacks best filter_all
            [Sample.ana_again; Sample.carla; Sample.ana; Sample.bruno])).
Proof.
  apply best_and_worst_ties_follow_the_input.
  - discriminate.
  - repeat constructor; simpl; unfold Sample.minute_later, Sample.noon; lia.
Defined.

End Projection.

(** ** The live feed *)

Module LiveFeed.
Import AdminPanel.

(** The number of stored records that carry the [id] of [r]. *)
Lemma onInsert_copies (r : Feedback) (prev : list Feedback) :
  length (List.filter (fun f => String.eqb (id f) (id r)) (onInsert r prev)) =
  S (length (List.filter (fun f => String.eqb (id f) (id r)) prev)).
Proof.
  unfold onInsert; simpl. now rewrite String.eqb_refl.
Qed.

(** C8, amended.  An insert notification puts its record in front of the
    stored records whether or not a record of that [id] is stored: the
    records are one more, and so are the stored records of that [id];
    the same notification delivered twice leaves one record more than
    delivered once, namely the record twice in front. *)
Theorem insert_notification_always_prepends (r : Feedback) (prev : list Feedback) :
  onInsert r prev = r :: prev /\
  length (onInsert r prev) = S (length prev) /\
  length (List.filter (fun f => String.eqb (id f) (id r)) (onInsert r prev)) =
    S (length (List.filter (fun f => String.eqb (id f) (id r)) prev)) /\
  onInsert r (onInsert r prev) = r :: r :: prev /\
  length (onInsert r (onInsert r prev)) = S (length (onInsert r prev)).
Proof.
  repeat split. apply onInsert_copies.
Qed.

(** C8 as stated fails: a notification for a record that is stored, with
    the very same fields, stores it a second time; and the notification
    delivered twice does not give the state it gives delivered once. *)
Lemma duplicate_notification_is_stored_twice :
  In Sample.ana [Sample.ana] /\
  onInsert Sample.ana [Sample.ana] = [Sample.ana; Sample.ana] /\
  onInsert Sample.ana [Sample.ana] <> [Sample.ana] /\
  onInsert Sample.ana (onInsert Sample.ana []) <> onInsert Sample.ana [].
Proof.
  repeat split; [ now left | discriminate | discriminate ].
Qed.

End LiveFeed.

(** ** The form's validation *)

Module Validation.
Import CustomerForm.

Lemma isEmpty_false (s : string) : isEmpty s = false <-> s <> EmptyString.
Proof. destruct s; simpl; split; congruence. Qed.

(** What [validateForm] tests, on any state: the four fields are not empty
    and no criterion is at 0. *)
Lemma validateForm_true_iff (s : FormState) :
  validateForm s = true <->
  name (customer s) <> EmptyString /\ cpf (customer s) <> EmptyString /\
  phone (customer s) <> EmptyString /\ instagram (customer s) <> EmptyString /\
  forall key, rating_get (ratings s) key <> 0.
Proof.
  unfold validateForm. rewrite <- !isEmpty_false.
  destruct (isEmpty (name (customer s))); simpl; [ intuition congruence | ].
  destruct (isEmpty (cpf (customer s))); simpl; [ intuition congruence | ].
  destruct (isEmpty (phone (customer s))); simpl; [ intuition congruence | ].
  destruct (isEmpty (instagram (customer s))); simpl; [ intuition congruence | ].
  unfold ratingCriteria; simpl List.filter.
  split.
  - intros H. repeat split. intros key.
    destruct (foodQuality (ratings s) =? 0) eqn:E1; [ discriminate | ].
    destruct (service (ratings s) =? 0) eqn:E2; [ discriminate | ].
    destruct (waitTime (ratings s) =? 0) eqn:E3; [ discriminate | ].
    destruct (cleanliness (ratings s) =? 0) eqn:E4; [ discriminate | ].
    destruct (valueForMoney (ratings s) =? 0) eqn:E5; [ discriminate | ].
    destruct (ambiance (ratings s) =? 0) eqn:E6; [ discriminate | ].
    destruct key; simpl; lia.
  - intros (_ & _ & _ & _ & H).
    pose proof (H k_foodQuality) as H1. pose proof (H k_service) as H2.
    pose proof (H k_waitTime) as H3. pose proof (H k_cleanliness) as H4.
    pose proof (H k_valueForMoney) as H5. pose proof (H k_ambiance) as H6.
    simpl in H1, H2, H3, H4, H5, H6.
    destruct (foodQuality (ratings s) =? 0) eqn:E1; [ lia | ].
    destruct (service (ratings s) =? 0) eqn:E2; [ lia | ].
    destruct (waitTime (ratings s) =? 0) eqn:E3; [ lia | ].
    destruct (cleanliness (ratings s) =? 0) eqn:E4; [ lia | ].
    destruct (valueForMoney (ratings s) =? 0) eqn:E5; [ lia | ].
    destruct (ambiance (ratings s) =? 0) eqn:E6; [ lia | ].
    reflexivity.
Qed.

(** The stars only ever set a criterion to a number from 1 to 5, so a
    criterion of the form is 0, not yet rated, or from 1 to 5. *)
Lemma reachable_scores (s : FormState) :
  reachable s -> forall key, 0 <= rating_get (ratings s) key <= 5.
Proof.
  induction 1 as [ | s s' _ IH Hstep ].
  - intros key; destruct key; simpl; lia.
  - destruct Hstep as [ field value s | field star value s Hin Hclick
                      | value s | insertError s ].
    + exact IH.
    + unfold StarRating.handleClick in Hclick; simpl in Hclick.
      injection Hclick as <-.
      assert (Hs : 1 <= star <= 5).
      { unfold StarRating.stars in Hin; simpl in Hin.
        destruct Hin as [ <- | [ <- | [ <- | [ <- | [ <- | [] ]]]]]; lia. }
      intros key. pose proof (IH key) as Hk.
      destruct field, key; simpl in *; lia.
    + intros key. pose proof (IH key) as Hk. destruct key; simpl in *; exact Hk.
    + unfold handleSubmit.
      destruct (negb (validateForm s)); simpl; [ exact IH | ].
      destruct insertError; [ exact IH | ].
      intros key; destruct key; simpl; lia.
Qed.

(** C9.  In every state the form can be in, validation passes exactly when
    the four customer fields are not empty and each of the six criteria is
    from 1 to 5; when it fails, [handleSubmit] sends no row to the store
    and leaves the form as it is; and a row that is sent carries four
    fields that are not empty and six scores from 1 to 5. *)
Theorem validation_gates_the_insert (s : FormState) :
  reachable s ->
  (validateForm s = true <->
   name (customer s) <> EmptyString /\ cpf (customer s) <> EmptyString /\
   phone (customer s) <> EmptyString /\ instagram (customer s) <> EmptyString /\
   forall key, 1 <= rating_get (ratings s) key <= 5) /\
  (forall insertError,
     validateForm s = false -> handleSubmit insertError s = (None, s)) /\
  (forall insertError row s',
     handleSubmit insertError s = (Some row, s') ->
     validateForm s = true /\
     nome row <> EmptyString /\ ins_cpf row <> EmptyString /\
     telefone row <> EmptyString /\ ins_instagram row <> EmptyString /\
     1 <= qualidade_comida row <= 5 /\ 1 <= atendimento row <= 5 /\
     1 <= tempo_espera row <= 5 /\ 1 <= higiene_limpeza row <= 5 /\
     1 <= custo_beneficio row <= 5 /\ 1 <= ambiente_conforto row <= 5).
Proof.
  intros Hr. pose proof (reachable_scores s Hr) as Hs.
  assert (Hiff : validateForm s = true <->
            name (customer s) <> EmptyString /\ cpf (customer s) <> EmptyString /\
            phone (customer s) <> EmptyString /\ instagram (customer s) <> EmptyString /\
            forall key, 1 <= rating_get (ratings s) key <= 5).
  { rewrite validateForm_true_iff. split.
    - intros (H1 & H2 & H3 & H4 & H). repeat split; try assumption;
        specialize (H key); specialize (Hs key); lia.
    - intros (H1 & H2 & H3 & H4 & H). repeat split; try assumption.
      intros key. specialize (H key). lia. }
  split; [ exact Hiff | split ].
  - intros insertError Hf. unfold handleSubmit. now rewrite Hf.
  - intros insertError row s' H. unfold handleSubmit in H.
    destruct (validateForm s) eqn:Hv; simpl in H; [ | discriminate ].
    injection H as <- _.
    destruct (proj1 Hiff eq_refl) as (H1 & H2 & H3 & H4 & H).
    simpl. repeat split; try assumption;
      try apply (H k_foodQuality); try apply (H k_service);
      try apply (H k_waitTime); try apply (H k_cleanliness);
      try apply (H k_valueForMoney); try apply (H k_ambiance).
Qed.

(** [validateForm] on its own tests the criteria against 0 only: a state
    with a criterion at 6, which no interaction leads to, would pass. *)
Example validateForm_tests_for_zero_only :
  validateForm
    {| customer := {| name := "Ana"; cpf := "111.111.111-11";
                      phone := "(11) 99999-9999"; instagram := "ana" |};
       ratings := {| foodQuality := 6; service := 5; waitTime := 5;
                     cleanliness := 5; valueForMoney := 5; ambiance := 5;
                     comment := EmptyString |} |} = true.
Proof. reflexivity. Qed.

Lemma form_in_progress_reachable : reachable Sample.form_in_progress.
Proof.
  unfold Sample.form_in_progress.
  eapply reachable_step.
  - eapply reachable_step; [ apply reachable_initial | apply step_customer ].
  - apply (step_star k_service 4 4); [ simpl; tauto | reflexivity ].
Qed.

Lemma validation_gates_the_insert_witness :
  handleSubmit false Sample.form_in_progress = (None, Sample.form_in_progress).
Proof.
  apply (proj1 (proj2 (validation_gates_the_insert Sample.form_in_progress
                         form_in_progress_reachable))).
  reflexivity.
Defined.

End Validation.

(** ** The export *)

Module ExportFacts.
Import AdminPanel.

Lemma append_cons (c : ascii) (s t : string) :
  (String c s ++ t)%string = String c (s ++ t)%string.
Proof. reflexivity. Qed.

Lemma read_Quoted_quote (rest : string) :
  CSV.read CSV.Quoted (String quote_char rest) = CSV.read CSV.QuoteSeen rest.
Proof. reflexivity. Qed.

Lemma read_QuoteSeen_quote (rest : string) :
  CSV.read CSV.QuoteSeen (String quote_char rest) =
  CSV.push quote_char (CSV.read CSV.Quoted rest).
Proof. reflexivity. Qed.

Lemma read_Quoted_other (c : ascii) (rest : string) :
  Ascii.eqb c quote_char = false ->
  CSV.read CSV.Quoted (String c rest) = CSV.push c (CSV.read CSV.Quoted rest).
Proof. intros E. simpl. now rewrite E. Qed.

(** Read back from inside the opening quote, the comment cell gives the
    comment: doubled quotes come back as one, and anything else, commas
    and line feeds included, as itself. *)
Lemma read_quoted_escaped (s : string) :
  CSV.read CSV.Quoted (escapeQuotes s ++ String quote_char EmptyString) =
  (s, [], []).
Proof.
  induction s as [ | c s IH ].
  - reflexivity.
  - simpl escapeQuotes. destruct (Ascii.eqb c quote_char) eqn:E.
    + apply Ascii.eqb_eq in E. subst c.
      rewrite !append_cons, read_Quoted_quote, read_QuoteSeen_quote, IH.
      reflexivity.
    + rewrite append_cons, (read_Quoted_other c _ E), IH. reflexivity.
Qed.

(** The comment cell on its own is read back as the comment. *)
Lemma commentCell_round_trip (comentario : option string) :
  CSV.parse (commentCell comentario) = [[default EmptyString comentario]].
Proof.
  unfold CSV.parse, commentCell.
  replace (CSV.read CSV.CellStart
             (String quote_char
                (escapeQuotes (default EmptyString comentario)
                 ++ String quote_char EmptyString)))
    with (CSV.read CSV.Quoted
            (escapeQuotes (default EmptyString comentario)
             ++ String quote_char EmptyString)) by reflexivity.
  now rewrite read_quoted_escaped.
Qed.

Lemma append_assoc (a b c : string) : ((a ++ b) ++ c)%string = (a ++ (b ++ c))%string.
Proof.
  induction a as [ | x a IH ]; [ reflexivity | ].
  rewrite !append_cons. now rewrite IH.
Qed.

Lemma append_empty (a : string) : (a ++ EmptyString)%string = a.
Proof.
  induction a as [ | x a IH ]; [ reflexivity | ].
  rewrite append_cons. now rewrite IH.
Qed.

Lemma append_nil (a : string) : (EmptyString ++ a)%string = a.
Proof. reflexivity. Qed.

Lemma plain_app (a b : string) :
  CSV.plain (a ++ b) = CSV.plain a && CSV.plain b.
Proof.
  induction a as [ | x a IH ]; [ reflexivity | ].
  rewrite append_cons. simpl CSV.plain. rewrite IH. now rewrite andb_assoc.
Qed.

Lemma special_false (c : ascii) :
  CSV.special c = false ->
  Ascii.eqb c quote_char = false /\ Ascii.eqb c comma_char = false /\
  Ascii.eqb c newline_char = false.
Proof.
  unfold CSV.special. intros H.
  destruct (Ascii.eqb c quote_char); [ discriminate | ].
  destruct (Ascii.eqb c comma_char); [ discriminate | ].
  destruct (Ascii.eqb c newline_char); [ discriminate | ]. auto.
Qed.

(** A text without special characters is read as it is. *)
Lemma read_Bare_plain (s rest : string) :
  CSV.plain s = true ->
  CSV.read CSV.Bare (s ++ rest) = CSV.prepend s (CSV.read CSV.Bare rest).
Proof.
  induction s as [ | c s IH ]; simpl CSV.plain; intros H.
  - rewrite append_nil. destruct (CSV.read CSV.Bare rest) as [[cell cells] rows].
    reflexivity.
  - apply andb_true_iff in H. destruct H as [Hc Hs].
    apply negb_true_iff, special_false in Hc. destruct Hc as (_ & Hcomma & Hnl).
    rewrite append_cons. simpl CSV.read. rewrite Hcomma, Hnl, (IH Hs).
    destruct (CSV.read CSV.Bare rest) as [[cell cells] rows]. reflexivity.
Qed.

Lemma read_CellStart_atDelimiter (rest : string) :
  CSV.atDelimiter rest -> CSV.read CSV.CellStart rest = CSV.read CSV.Bare rest.
Proof.
  intros [ -> | [ [r ->] | [r ->] ] ]; reflexivity.
Qed.

Lemma read_QuoteSeen_atDelimiter (rest : string) :
  CSV.atDelimiter rest -> CSV.read CSV.QuoteSeen rest = CSV.read CSV.Bare rest.
Proof.
  intros [ -> | [ [r ->] | [r ->] ] ]; reflexivity.
Qed.

Lemma read_CellStart_plain (s rest : string) :
  CSV.plain s = true -> CSV.atDelimiter rest ->
  CSV.read CSV.CellStart (s ++ rest) = CSV.prepend s (CSV.read CSV.Bare rest).
Proof.
  intros Hs Hrest. destruct s as [ | c s ].
  - rewrite append_nil, (read_CellStart_atDelimiter rest Hrest).
    destruct (CSV.read CSV.Bare rest) as [[cell cells] rows]. reflexivity.
  - simpl CSV.plain in Hs. apply andb_true_iff in Hs. destruct Hs as [Hc Hs].
    apply negb_true_iff, special_false in Hc. destruct Hc as (Hq & Hcomma & Hnl).
    rewrite append_cons. simpl CSV.read. rewrite Hq, Hcomma, Hnl.
    rewrite (read_Bare_plain s rest Hs).
    destruct (CSV.read CSV.Bare rest) as [[cell cells] rows]. reflexivity.
Qed.

(** The escaped comment and its closing quote, with more text behind. *)
Lemma read_quoted_escaped_then (s rest : string) :
  CSV.read CSV.Quoted (escapeQuotes s ++ String quote_char rest) =
  CSV.prepend s (CSV.read CSV.QuoteSeen rest).
Proof.
  induction s as [ | c s IH ].
  - simpl escapeQuotes. rewrite append_nil, read_Quoted_quote.
    destruct (CSV.read CSV.QuoteSeen rest) as [[cell cells] rows]. reflexivity.
  - simpl escapeQuotes. destruct (Ascii.eqb c quote_char) eqn:E.
    + apply Ascii.eqb_eq in E. subst c.
      rewrite !append_cons, read_Quoted_quote, read_QuoteSeen_quote, IH.
      destruct (CSV.read CSV.QuoteSeen rest) as [[cell cells] rows]. reflexivity.
    + rewrite append_cons, (read_Quoted_other c _ E), IH.
      destruct (CSV.read CSV.QuoteSeen rest) as [[cell cells] rows]. reflexivity.
Qed.

Lemma read_commentCell (comentario : option string) (rest : string) :
  CSV.atDelimiter rest ->
  CSV.read CSV.CellStart (commentCell comentario ++ rest) =
  CSV.prepend (default EmptyString comentario) (CSV.read CSV.Bare rest).
Proof.
  intros Hrest. unfold commentCell. rewrite append_cons, append_assoc.
  rewrite append_cons, append_nil.
  replace (CSV.read CSV.CellStart
             (String quote_char
                (escapeQuotes (default EmptyString comentario)
                 ++ String quote_char rest)))
    with (CSV.read CSV.Quoted
            (escapeQuotes (default EmptyString comentario)
             ++ String quote_char rest)) by reflexivity.
  rewrite read_quoted_escaped_then. now rewrite read_QuoteSeen_atDelimiter.
Qed.

Lemma join_cons (sep p : string) (q : string) (rest : list string) :
  JS.join sep (p :: q :: rest) = (p ++ sep ++ JS.join sep (q :: rest))%string.
Proof. reflexivity. Qed.

Lemma consCells_prepend_endCell (f : string) (p : CSV.Partial) :
  CSV.prepend f (CSV.endCell p) = CSV.consCells [f] p.
Proof.
  destruct p as [[cell cells] rows]. simpl. now rewrite append_empty.
Qed.

(** A row: cells without special characters, commas between them, and a
    last cell that is read back as [value]. *)
Lemma read_row (fields : list string) (last value rest : string) :
  Forall (fun f => CSV.plain f = true) fields ->
  (forall rest', CSV.atDelimiter rest' ->
     CSV.read CSV.CellStart (last ++ rest') =
     CSV.prepend value (CSV.read CSV.Bare rest')) ->
  CSV.atDelimiter rest ->
  CSV.read CSV.CellStart (JS.join "," (fields ++ [last]) ++ rest) =
  CSV.consCells fields (CSV.prepend value (CSV.read CSV.Bare rest)).
Proof.
  intros Hf Hlast Hrest. induction Hf as [ | f fields Hp _ IH ].
  - simpl. now apply Hlast.
  - change ((f :: fields) ++ [last]) with (f :: (fields ++ [last])).
    destruct (fields ++ [last]) as [ | q more ] eqn:E.
    { destruct fields; discriminate. }
    rewrite join_cons, !append_assoc.
    change (("," ++ JS.join "," (q :: more) ++ rest)%string)
      with (String comma_char (JS.join "," (q :: more) ++ rest)).
    rewrite read_CellStart_plain; [ | exact Hp | right; left; eauto ].
    replace (CSV.read CSV.Bare (String comma_char (JS.join "," (q :: more) ++ rest)))
      with (CSV.endCell (CSV.read CSV.CellStart (JS.join "," (q :: more) ++ rest)))
      by reflexivity.
    rewrite IH, consCells_prepend_endCell. reflexivity.
Qed.

Lemma uint_plain (d : Decimal.uint) : CSV.plain (NilEmpty.string_of_uint d) = true.
Proof. induction d; simpl; auto. Qed.

(** A number is written with digits and a sign. *)
Lemma toString_plain (n : Z) : CSV.plain (JS.toString n) = true.
Proof.
  unfold JS.toString, NilZero.string_of_int.
  destruct (Z.to_int n) as [ d | d ].
  - unfold NilZero.string_of_uint. destruct d; try reflexivity; apply uint_plain.
  - change (CSV.plain (String "-" (NilZero.string_of_uint d)) = true).
    simpl CSV.plain. unfold NilZero.string_of_uint.
    destruct d; try reflexivity; apply uint_plain.
Qed.

Lemma pad2_plain (n : Z) : CSV.plain (pad2 n) = true.
Proof.
  unfold pad2. destruct (n <? 10).
  - rewrite plain_app, toString_plain. reflexivity.
  - apply toString_plain.
Qed.

Lemma toLocaleDateString_plain (t : Z) : CSV.plain (toLocaleDateString t) = true.
Proof.
  unfold toLocaleDateString. cbv zeta.
  rewrite !plain_app, !pad2_plain, toString_plain. reflexivity.
Qed.

Lemma join_lines (header : string) (l : list Feedback) :
  JS.join (String newline_char EmptyString)
    (header :: map (fun feedback => JS.join "," (csvRow feedback)) l) =
  (header ++ CSV.recordLines l)%string.
Proof.
  revert header. induction l as [ | r l IH ]; intros header.
  - simpl. now rewrite append_empty.
  - simpl map. rewrite join_cons, IH. reflexivity.
Qed.

Lemma recordLines_atDelimiter (l : list Feedback) : CSV.atDelimiter (CSV.recordLines l).
Proof.
  destruct l as [ | r l ]; [ now left | right; right; simpl; eauto ].
Qed.

Lemma read_recordLines (l : list Feedback) :
  Forall CSV.plainCustomer l ->
  CSV.read CSV.Bare (CSV.recordLines l) = (EmptyString, [], map CSV.fieldValues l).
Proof.
  induction 1 as [ | r l (Hn & Hc & Ht & Hi) _ IH ]; [ reflexivity | ].
  change (CSV.recordLines (r :: l))
    with (String newline_char (JS.join "," (csvRow r) ++ CSV.recordLines l)).
  replace (CSV.read CSV.Bare
             (String newline_char (JS.join "," (csvRow r) ++ CSV.recordLines l)))
    with (CSV.endRow
            (CSV.read CSV.CellStart (JS.join "," (csvRow r) ++ CSV.recordLines l)))
    by reflexivity.
  change (csvRow r)
    with ([ nome r; cpf r; telefone r; instagram r;
            toLocaleDateString (created_at r);
            JS.toString (qualidade_comida r); JS.toString (atendimento r);
            JS.toString (tempo_espera r); JS.toString (higiene_limpeza r);
            JS.toString (custo_beneficio r); JS.toString (ambiente_conforto r) ]
          ++ [commentCell (comentario r)]).
  rewrite (read_row
             [ nome r; cpf r; telefone r; instagram r;
               toLocaleDateString (created_at r);
               JS.toString (qualidade_comida r); JS.toString (atendimento r);
               JS.toString (tempo_espera r); JS.toString (higiene_limpeza r);
               JS.toString (custo_beneficio r); JS.toString (ambiente_conforto r) ]
             (commentCell (comentario r))
             (default EmptyString (comentario r))).
  - rewrite IH. simpl. rewrite append_empty. reflexivity.
  - repeat constructor; auto using toString_plain, toLocaleDateString_plain.
  - intros rest' Hrest'. now apply read_commentCell.
  - apply recordLines_atDelimiter.
Qed.

(** X4.  When no name, cpf, telephone or instagram of the records holds a
    comma, a quote or a line feed, the export is read back as the header
    row and, record by record, the values it was written from, whatever
    the comments are. *)
Theorem export_round_trip_of_plain_customers (l : list Feedback) :
  Forall CSV.plainCustomer l ->
  CSV.parse (exportToCSV l) = headers :: map CSV.fieldValues l.
Proof.
  intros H. unfold exportToCSV. rewrite join_lines. unfold CSV.parse.
  change headers
    with ([ "Nome"; "CPF"; "Telefone"; "Instagram"; "Data"; "Qualidade Comida";
            "Atendimento"; "Tempo Espera"; "Higiene"; "Custo-Benefício";
            "Ambiente" ]%string ++ ["Comentário"%string]) at 1.
  rewrite (read_row
             [ "Nome"; "CPF"; "Telefone"; "Instagram"; "Data"; "Qualidade Comida";
               "Atendimento"; "Tempo Espera"; "Higiene"; "Custo-Benefício";
               "Ambiente" ]%string
             "Comentário"%string "Comentário"%string).
  - rewrite (read_recordLines l H). reflexivity.
  - repeat constructor.
  - intros rest' Hrest'. now apply read_CellStart_plain.
  - apply recordLines_atDelimiter.
Qed.

Lemma export_round_trip_of_plain_customers_witness :
  CSV.parse (exportToCSV [Sample.ana; Sample.carla]) =
  headers :: map CSV.fieldValues [Sample.ana; Sample.carla].
Proof.
  apply export_round_trip_of_plain_customers.
  repeat constructor.
Defined.

(** C7 fails on the code.  The export is the header line and one line per
    record, and the comment is quoted with its quotes doubled, so that on
    its own it is read back as it was; but the other cells are written as
    they are.  A name with a comma in it is written without quotes: the
    reader finds thirteen cells in the record's row, the name split in
    two, where the record has twelve values. *)
Theorem export_splits_a_name_with_a_comma :
  (forall comentario,
     CSV.parse (commentCell comentario) = [[default EmptyString comentario]]) /\
  exportToCSV [Sample.silva] =
    (JS.join "," headers ++ String newline_char
       "Silva, Ana,444.444.444-44,(11) 99999-9999,lardo,01/05/2024,4,4,4,4,4,4,"
     ++ commentCell (Some "bom"))%string /\
  CSV.parse (exportToCSV [Sample.silva]) =
    [ headers;
      [ "Silva"; " Ana"; "444.444.444-44"; "(11) 99999-9999"; "lardo";
        "01/05/2024"; "4"; "4"; "4"; "4"; "4"; "4"; "bom" ]%string ] /\
  CSV.fieldValues Sample.silva =
    [ "Silva, Ana"; "444.444.444-44"; "(11) 99999-9999"; "lardo";
      "01/05/2024"; "4"; "4"; "4"; "4"; "4"; "4"; "bom" ]%string /\
  CSV.parse (exportToCSV [Sample.silva]) <> [ headers; CSV.fieldValues Sample.silva ].
Proof.
  split; [ apply commentCell_round_trip | ].
  split; [ vm_compute; reflexivity | ].
  split; [ vm_compute; reflexivity | ].
  split; [ vm_compute; reflexivity | ].
  vm_compute. discriminate.
Qed.

End ExportFacts.

(** ** The worst and the best criterion *)

Module Extremes.
Import AdminPanel.

(** The [reduce] with [keepLower] ends on the first of the entries with the
    least value: those before it are strictly above, those after it not
    below. *)
Lemma keepLower_first (xs : list (string * Q)) :
  forall (pre : list (string * Q)) (acc : string * Q) (post : list (string * Q)),
    Forall (fun e => (snd acc < snd e)%Q) pre ->
    Forall (fun e => (snd acc <= snd e)%Q) post ->
    exists pre' post',
      pre ++ acc :: post ++ xs = pre' ++ fold_left keepLower xs acc :: post' /\
      Forall (fun e => (snd (fold_left keepLower xs acc) < snd e)%Q) pre' /\
      Forall (fun e => (snd (fold_left keepLower xs acc) <= snd e)%Q) post'.
Proof.
  induction xs as [ | x xs IH ]; intros pre acc post Hpre Hpost.
  - exists pre, post. rewrite app_nil_r. auto.
  - simpl fold_left.
    destruct (Qle_bool (snd acc) (snd x)) eqn:E.
    + replace (keepLower acc x) with acc by (unfold keepLower; now rewrite E).
      apply Qle_bool_iff in E.
      destruct (IH pre acc (post ++ [x])) as (pre' & post' & Heq & H1 & H2).
      * exact Hpre.
      * apply Forall_app. split; [ exact Hpost | constructor; [ exact E | constructor ] ].
      * exists pre', post'. rewrite <- Heq, <- app_assoc. auto.
    + replace (keepLower acc x) with x by (unfold keepLower; now rewrite E).
      assert (Hlt : (snd x < snd acc)%Q).
      { apply Qnot_le_lt. intros H. apply Qle_bool_iff in H. congruence. }
      destruct (IH (pre ++ acc :: post) x []) as (pre' & post' & Heq & H1 & H2).
      * apply Forall_app. split; [ | constructor ].
        -- eapply List.Forall_impl; [ | exact Hpre ]. intros e He; simpl in *.
           eapply Qlt_trans; eassumption.
        -- exact Hlt.
        -- eapply List.Forall_impl; [ | exact Hpost ]. intros e He; simpl in *.
           eapply Qlt_le_trans; eassumption.
      * constructor.
      * exists pre', post'. rewrite <- Heq. simpl. rewrite <- app_assoc. auto.
Qed.

(** The mirror image for [keepHigher]. *)
Lemma keepHigher_first (xs : list (string * Q)) :
  forall (pre : list (string * Q)) (acc : string * Q) (post : list (string * Q)),
    Forall (fun e => (snd e < snd acc)%Q) pre ->
    Forall (fun e => (snd e <= snd acc)%Q) post ->
    exists pre' post',
      pre ++ acc :: post ++ xs = pre' ++ fold_left keepHigher xs acc :: post' /\
      Forall (fun e => (snd e < snd (fold_left keepHigher xs acc))%Q) pre' /\
      Forall (fun e => (snd e <= snd (fold_left keepHigher xs acc))%Q) post'.
Proof.
  induction xs as [ | x xs IH ]; intros pre acc post Hpre Hpost.
  - exists pre, post. rewrite app_nil_r. auto.
  - simpl fold_left.
    destruct (Qle_bool (snd x) (snd acc)) eqn:E.
    + replace (keepHigher acc x) with acc by (unfold keepHigher; now rewrite E).
      apply Qle_bool_iff in E.
      destruct (IH pre acc (post ++ [x])) as (pre' & post' & Heq & H1 & H2).
      * exact Hpre.
      * apply Forall_app. split; [ exact Hpost | constructor; [ exact E | constructor ] ].
      * exists pre', post'. rewrite <- Heq, <- app_assoc. auto.
    + replace (keepHigher acc x) with x by (unfold keepHigher; now rewrite E).
      assert (Hlt : (snd acc < snd x)%Q).
      { apply Qnot_le_lt. intros H. apply Qle_bool_iff in H. congruence. }
      destruct (IH (pre ++ acc :: post) x []) as (pre' & post' & Heq & H1 & H2).
      * apply Forall_app. split; [ | constructor ].
        -- eapply List.Forall_impl; [ | exact Hpre ]. intros e He; simpl in *.
           eapply Qlt_trans; eassumption.
        -- exact Hlt.
        -- eapply List.Forall_impl; [ | exact Hpost ]. intros e He; simpl in *.
           eapply Qle_lt_trans; eassumption.
      * constructor.
      * exists pre', post'. rewrite <- Heq. simpl. rewrite <- app_assoc. auto.
Qed.

(** X2.  With no feedback there is neither a worst nor a best criterion.
    With feedback, the worst criterion is the first, in the order of the
    criteria, of those with the least average, and the best the first of
    those with the greatest; each comes with its label. *)
Theorem worst_and_best_are_first_extremes (l : list Feedback) :
  getWorstAndBestCriteria [] = (None, None) /\
  (l <> [] ->
   exists worst best,
     getWorstAndBestCriteria l = (Some worst, Some best) /\
     (exists pre key post,
        calculateAverages l = pre ++ (key, score worst) :: post /\
        criterion_name worst = criteriaMapping_get criteriaMapping key /\
        Forall (fun e => (score worst < snd e)%Q) pre /\
        Forall (fun e => (score worst <= snd e)%Q) post) /\
     (exists pre key post,
        calculateAverages l = pre ++ (key, score best) :: post /\
        criterion_name best = criteriaMapping_get criteriaMapping key /\
        Forall (fun e => (snd e < score best)%Q) pre /\
        Forall (fun e => (snd e <= score best)%Q) post)).
Proof.
  split; [ reflexivity | intros Hl ].
  unfold getWorstAndBestCriteria.
  rewrite (Averages.calculateAverages_nonempty l Hl).
  match goal with
  | |- context [ reduce1 keepLower ?f ?r ] =>
      generalize f; intros first; generalize r; intros rest
  end.
  unfold reduce1.
  destruct (keepLower_first rest [] first []) as (pre & post & Heq & H1 & H2);
    [ constructor | constructor | ].
  destruct (keepHigher_first rest [] first []) as (pre' & post' & Heq' & H1' & H2');
    [ constructor | constructor | ].
  change ([] ++ first :: [] ++ rest) with (first :: rest) in Heq, Heq'.
  destruct (fold_left keepLower rest first) as [wkey wscore].
  destruct (fold_left keepHigher rest first) as [bkey bscore].
  exists {| criterion_name := criteriaMapping_get criteriaMapping wkey;
            score := wscore |},
         {| criterion_name := criteriaMapping_get criteriaMapping bkey;
            score := bscore |}.
  split; [ reflexivity | split ].
  - exists pre, wkey, post. cbn [score criterion_name]. auto.
  - exists pre', bkey, post'. cbn [score criterion_name]. auto.
Qed.

Lemma worst_and_best_are_first_extremes_witness :
  exists worst best,
    getWorstAndBestCriteria [Sample.ana; Sample.bruno; Sample.carla] =
      (Some worst, Some best) /\
    (exists pre key post,
       calculateAverages [Sample.ana; Sample.bruno; Sample.carla] =
         pre ++ (key, score worst) :: post /\
       criterion_name worst = criteriaMapping_get criteriaMapping key /\
       Forall (fun e => (score worst < snd e)%Q) pre /\
       Forall (fun e => (score worst <= snd e)%Q) post) /\
    (exists pre key post,
       calculateAverages [Sample.ana; Sample.bruno; Sample.carla] =
         pre ++ (key, score best) :: post /\
       criterion_name best = criteriaMapping_get criteriaMapping key /\
       Forall (fun e => (snd e < score best)%Q) pre /\
       Forall (fun e => (snd e <= score best)%Q) post).
Proof.
  apply (proj2 (worst_and_best_are_first_extremes
                  [Sample.ana; Sample.bruno; Sample.carla])).
  discriminate.
Defined.

(** Constant scores 5, 1 and 3: the six averages tie, and the first
    criterion is both the worst and the best. *)
Example worst_and_best_of_a_tie :
  getWorstAndBestCriteria [Sample.ana; Sample.bruno; Sample.carla] =
  (Some {| criterion_name := Some "Qualidade da Comida"%string; score := 9 # 3 |},
   Some {| criterion_name := Some "Qualidade da Comida"%string; score := 9 # 3 |}).
Proof. vm_compute. reflexivity. Qed.

End Extremes.

(** ** The exact averages and the doubles of the browser *)

Module Exactness.
Import AdminPanel.

Lemma scoreSum_bounds (r : Feedback) : Spec.validScores r -> 6 <= scoreSum r <= 30.
Proof. unfold Spec.validScores, scoreSum. lia. Qed.

(** X1.  For feedbacks with scores from 1 to 5 the model's exact averages
    decide as the doubles do: the average of a feedback, computed in
    binary64, rounds to the bucket [roundedRating] names, passes a minimum
    from 1 to 5 exactly when [passesMinRating] says so, and the difference
    of two such averages is positive, for [sort], exactly when the model's
    comparator is. *)
Theorem exact_averages_decide_as_doubles (a b : Feedback) (k : Z) :
  Spec.validScores a -> Spec.validScores b -> 1 <= k <= 5 ->
  JS.Double.Math_round
    (JS.Double.div (JS.Double.of_Z (scoreSum a)) (JS.Double.of_Z 6)) =
    JS.Double.of_Z (roundedRating a) /\
  JS.Double.leb (JS.Double.of_Z k)
    (JS.Double.div (JS.Double.of_Z (scoreSum a)) (JS.Double.of_Z 6)) =
    passesMinRating k a /\
  JS.Double.leb
    (JS.Double.sub
       (JS.Double.div (JS.Double.of_Z (scoreSum b)) (JS.Double.of_Z 6))
       (JS.Double.div (JS.Double.of_Z (scoreSum a)) (JS.Double.of_Z 6)))
    (JS.Double.of_Z 0) =
    Qle_bool (compareFeedbacks best a b) 0 /\
  JS.Double.leb
    (JS.Double.sub
       (JS.Double.div (JS.Double.of_Z (scoreSum a)) (JS.Double.of_Z 6))
       (JS.Double.div (JS.Double.of_Z (scoreSum b)) (JS.Double.of_Z 6)))
    (JS.Double.of_Z 0) =
    Qle_bool (compareFeedbacks worst a b) 0.
Proof.
  intros Ha Hb Hk.
  apply scoreSum_bounds in Ha. apply scoreSum_bounds in Hb.
  unfold roundedRating, passesMinRating, compareFeedbacks, avgRating.
  split; [ now apply DoubleFacts.round_sixth_in_doubles | ].
  split; [ now apply DoubleFacts.minimum_sixth_in_doubles | ].
  split; now apply DoubleFacts.compare_sixths_in_doubles.
Qed.

Lemma exact_averages_decide_as_doubles_witness :
  JS.Double.Math_round
    (JS.Double.div (JS.Double.of_Z (scoreSum Sample.silva)) (JS.Double.of_Z 6)) =
  JS.Double.of_Z (roundedRating Sample.silva).
Proof.
  apply (exact_averages_decide_as_doubles Sample.silva Sample.carla 3);
    unfold Spec.validScores; simpl; lia.
Defined.

Lemma sum_of_record_averages (l : list Feedback) :
  (fold_right (fun r acc => avgRating r + acc) 0 l ==
   inject_Z (Spec.criterionSum scoreSum l) / 6)%Q.
Proof.
  induction l as [ | r l IH ]; simpl.
  - reflexivity.
  - rewrite IH. unfold avgRating. rewrite inject_Z_plus. field.
Qed.

Lemma criterionSum_scoreSum (l : list Feedback) :
  Spec.criterionSum scoreSum l =
  Spec.criterionSum qualidade_comida l + Spec.criterionSum atendimento l
  + Spec.criterionSum tempo_espera l + Spec.criterionSum higiene_limpeza l
  + Spec.criterionSum custo_beneficio l + Spec.criterionSum ambiente_conforto l.
Proof.
  induction l as [ | r l IH ]; simpl; [ reflexivity | ].
  rewrite IH. unfold scoreSum. lia.
Qed.

(** X3.  In exact arithmetic the overall average of the dashboard, the mean
    of the six per-criterion averages, is the mean of the per-record
    averages: the two formulas can differ only in the rounding of the
    doubles. *)
Theorem overall_average_is_mean_of_record_averages (l : list Feedback) :
  l <> [] -> (overallAverage l == Spec.meanOfRecordAverages l)%Q.
Proof.
  intros Hl. rewrite (Averages.overallAverage_nonempty l Hl).
  unfold Spec.meanOfRecordAverages, Spec.perCriterionAverage.
  rewrite sum_of_record_averages, criterionSum_scoreSum, !inject_Z_plus.
  assert (Hn : ~ (inject_Z (Z.of_nat (length l)) == 0)%Q).
  { destruct l as [ | r l ]; [ congruence | ].
    unfold Qeq; simpl. lia. }
  field. exact Hn.
Qed.

Lemma overall_average_is_mean_of_record_averages_witness :
  (overallAverage [Sample.ana; Sample.bruno; Sample.carla] ==
   Spec.meanOfRecordAverages [Sample.ana; Sample.bruno; Sample.carla])%Q.
Proof.
  apply overall_average_is_mean_of_record_averages. discriminate.
Defined.

End Exactness.

(** ** The card of a feedback *)

Module CardFacts.
Import AdminPanel.

(** The tenths written for a positive number of sixths, by integer
    division. *)
Lemma tenths_sixth (s : Z) :
  0 <= s -> JS.tenths (inject_Z s / 6) = (10 * s + 3) / 6.
Proof.
  intros Hs. unfold JS.tenths.
  assert (E : (Qabs (inject_Z s / 6) * 10 + (1 # 2) == (10 * s + 3) # 6)%Q).
  { rewrite Qabs_pos.
    - unfold Qeq, Qplus, Qdiv, Qmult, Qinv, inject_Z; simpl. lia.
    - unfold Qle, Qdiv, Qmult, Qinv, inject_Z; simpl. lia. }
  rewrite (Qfloor_comp _ _ E). reflexivity.
Qed.

Lemma filled_count (a : Z) :
  1 <= a <= 5 ->
  length (List.filter (fun b : bool => b) (map (fun i => i <? a) [0; 1; 2; 3; 4])) =
  Z.to_nat a.
Proof.
  intros Ha.
  assert (H : a = 1 \/ a = 2 \/ a = 3 \/ a = 4 \/ a = 5) by lia.
  destruct H as [-> | [-> | [-> | [-> | ->]]]]; reflexivity.
Qed.

Lemma tenths_sixth_in_doubles (s : Z) :
  6 <= s <= 30 ->
  JS.Double.tenths (JS.Double.div (JS.Double.of_Z s) (JS.Double.of_Z 6)) =
  Some (JS.tenths (inject_Z s / 6)).
Proof.
  intros Hs. DoubleFacts.enumerate s 6 30; vm_compute; reflexivity.
Qed.

Lemma negative_sixth_in_doubles (s : Z) :
  6 <= s <= 30 ->
  JS.Double.leb (JS.Double.div (JS.Double.of_Z s) (JS.Double.of_Z 6))
                (JS.Double.of_Z 3) =
  Qle_bool (inject_Z s / 6) 3.
Proof.
  intros Hs. DoubleFacts.enumerate s 6 30; vm_compute; reflexivity.
Qed.

(** X6.  The card of a feedback with scores from 1 to 5.  It has as many
    filled stars as the rating of the bucket the feedback is counted in.
    It is drawn as negative exactly when the six scores add up to 18 or
    less.  The number written on it is a number of tenths from 10 to 50,
    without a sign, and no further than a twentieth from the average.
    The tenths and the test for a negative card are the same when the
    average is computed in doubles. *)
Theorem card_of_a_valid_feedback (r : Feedback) :
  Spec.validScores r ->
  length (List.filter (fun b : bool => b) (cardStars r)) = Z.to_nat (roundedRating r) /\
  getRatingDistribution [r] =
    Spec.buckets
      (fun k => if k =? Z.of_nat (length (List.filter (fun b : bool => b) (cardStars r)))
                then 1 else 0) /\
  (isNegative r = true <-> scoreSum r <= 18) /\
  cardAverage r =
    (JS.toString (JS.tenths (avgRating r) / 10) ++ "."
     ++ JS.toString (JS.tenths (avgRating r) mod 10))%string /\
  10 <= JS.tenths (avgRating r) <= 50 /\
  (Qabs (inject_Z (JS.tenths (avgRating r)) / 10 - avgRating r) <= 1 # 20)%Q /\
  JS.Double.tenths
    (JS.Double.div (JS.Double.of_Z (scoreSum r)) (JS.Double.of_Z 6)) =
    Some (JS.tenths (avgRating r)) /\
  JS.Double.leb
    (JS.Double.div (JS.Double.of_Z (scoreSum r)) (JS.Double.of_Z 6))
    (JS.Double.of_Z 3) = isNegative r.
Proof.
  intros Hv.
  pose proof (Histogram.roundedRating_bounds r Hv) as Hb.
  pose proof (Exactness.scoreSum_bounds r Hv) as Hs.
  assert (Hstars : length (List.filter (fun b : bool => b) (cardStars r)) =
                   Z.to_nat (roundedRating r)).
  { unfold cardStars. fold (roundedRating r). unfold avgRating.
    change (JS.Math_round (inject_Z (scoreSum r) / 6)) with (roundedRating r).
    now apply filled_count. }
  split; [ exact Hstars | ].
  split.
  { rewrite Hstars, Z2Nat.id by lia.
    rewrite Histogram.getRatingDistribution_histogram.
    apply Histogram.buckets_ext. intros k _.
    rewrite Histogram.histogram_cons. unfold Spec.histogram; simpl.
    destruct (k =? roundedRating r); reflexivity. }
  split.
  { unfold isNegative. rewrite Qle_bool_iff.
    unfold avgRating, Qle, Qdiv, Qmult, Qinv, inject_Z; simpl. lia. }
  assert (Ht : JS.tenths (avgRating r) = (10 * scoreSum r + 3) / 6)
    by (apply tenths_sixth; lia).
  split.
  { unfold cardAverage, JS.toFixed1.
    replace (Qle_bool 0 (avgRating r)) with true; [ reflexivity | ].
    symmetry. apply Qle_bool_iff.
    unfold avgRating, Qle, Qdiv, Qmult, Qinv, inject_Z; simpl. lia. }
  split.
  { rewrite Ht. Z.to_euclidean_division_equations; lia. }
  split.
  { rewrite Ht. unfold avgRating.
    set (s := scoreSum r) in *.
    assert (H : 6 * ((10 * s + 3) / 6) <= 10 * s + 3 < 6 * ((10 * s + 3) / 6) + 6)
      by (Z.to_euclidean_division_equations; lia).
    set (t := (10 * s + 3) / 6) in *.
    apply Qabs_Qle_condition. split.
    - unfold Qle, Qminus, Qplus, Qopp, Qdiv, Qmult, Qinv, inject_Z; simpl. lia.
    - unfold Qle, Qminus, Qplus, Qopp, Qdiv, Qmult, Qinv, inject_Z; simpl. lia. }
  split.
  { unfold avgRating. now apply tenths_sixth_in_doubles. }
  unfold isNegative, avgRating. now apply negative_sixth_in_doubles.
Qed.

Lemma card_of_a_valid_feedback_witness :
  length (List.filter (fun b : bool => b) (cardStars Sample.silva)) =
  Z.to_nat (roundedRating Sample.silva).
Proof.
  apply (card_of_a_valid_feedback Sample.silva).
  unfold Spec.validScores; simpl; lia.
Defined.

End CardFacts.

(** ** The star widget *)

Module StarFacts.
Import StarRating.

Lemma drawn_count (hover value : Z) :
  length (List.filter (fun b : bool => b) (drawn hover value)) =
  Z.to_nat (Z.max 0 (Z.min 5 (shownRating hover value))).
Proof.
  unfold drawn, filled, stars. set (e := shownRating hover value).
  destruct (Z_lt_le_dec e 1) as [ H | H ].
  - simpl. destruct (1 <=? e) eqn:E1; [ lia | ].
    destruct (2 <=? e) eqn:E2; [ lia | ]. destruct (3 <=? e) eqn:E3; [ lia | ].
    destruct (4 <=? e) eqn:E4; [ lia | ]. destruct (5 <=? e) eqn:E5; [ lia | ].
    simpl. lia.
  - destruct (Z_lt_le_dec 5 e) as [ H5 | H5 ].
    + simpl. destruct (1 <=? e) eqn:E1; [ | lia ].
      destruct (2 <=? e) eqn:E2; [ | lia ]. destruct (3 <=? e) eqn:E3; [ | lia ].
      destruct (4 <=? e) eqn:E4; [ | lia ]. destruct (5 <=? e) eqn:E5; [ | lia ].
      simpl. lia.
    + assert (He : e = 1 \/ e = 2 \/ e = 3 \/ e = 4 \/ e = 5) by lia.
      destruct He as [-> | [-> | [-> | [-> | ->]]]]; reflexivity.
Qed.

(** A filled star has only filled stars on its left. *)
Lemma drawn_prefix (hover value : Z) (i j : nat) :
  (i <= j)%nat ->
  nth j (drawn hover value) false = true ->
  nth i (drawn hover value) false = true.
Proof.
  unfold drawn, filled, stars. set (e := shownRating hover value). intros Hij Hj.
  do 5 (destruct j as [ | j ];
        [ repeat (destruct i as [ | i ]; [ | try lia ]);
          simpl in *; try exact Hj; lia | ]).
  destruct j; simpl in Hj; discriminate.
Qed.

Lemma hover_run_app (readonly : bool) (events : list StarEvent) (ev : StarEvent) :
  hover_run readonly (events ++ [ev]) =
  hover_step readonly (hover_run readonly events) ev.
Proof. unfold hover_run. now rewrite fold_left_app. Qed.

Lemma hover_run_bounds (readonly : bool) (events : list StarEvent) :
  Forall pointer events -> 0 <= hover_run readonly events <= 5.
Proof.
  induction events as [ | ev events IH ] using rev_ind; intros H.
  - unfold hover_run; simpl. lia.
  - apply Forall_app in H. destruct H as [He Hev].
    inversion Hev as [ | x xs Hp _ ]; subst.
    rewrite hover_run_app. specialize (IH He).
    destruct ev as [ star | star | ]; simpl; destruct readonly; simpl; try lia.
    unfold pointer, stars in Hp; simpl in Hp.
    destruct Hp as [ <- | [ <- | [ <- | [ <- | [ <- | [] ]]]]]; lia.
Qed.

Lemma hover_run_readonly (events : list StarEvent) : hover_run true events = 0.
Proof.
  induction events as [ | ev events IH ] using rev_ind.
  - reflexivity.
  - rewrite hover_run_app, IH. destruct ev; reflexivity.
Qed.

Lemma emitted_run_readonly (events : list StarEvent) : emitted_run true events = [].
Proof.
  unfold emitted_run. induction events as [ | ev events IH ]; simpl.
  - reflexivity.
  - rewrite IH. destruct ev; reflexivity.
Qed.

Lemma emitted_run_stars (readonly : bool) (events : list StarEvent) :
  Forall pointer events ->
  Forall (fun rating => 1 <= rating <= 5) (emitted_run readonly events).
Proof.
  unfold emitted_run. induction 1 as [ | ev events Hp _ IH ]; simpl.
  - constructor.
  - destruct ev as [ star | star | ]; simpl; try exact IH.
    unfold handleClick. destruct readonly; simpl; [ exact IH | ].
    constructor; [ | exact IH ].
    unfold pointer, stars in Hp; simpl in Hp.
    destruct Hp as [ <- | [ <- | [ <- | [ <- | [ <- | [] ]]]]]; lia.
Qed.

(** X7.  The widget draws a run of filled stars from the left: as many as
    the hovered star, or the value when no star is hovered, cut off at 0
    and at 5.  After any movements and clicks of the pointer on its stars
    the hovered star is none or one of the five, and every rating it has
    handed to [onChange] is from 1 to 5.  A [readonly] widget never has a
    hovered star and hands nothing to [onChange]: it draws the value. *)
Theorem stars_drawn_and_ratings_emitted
    (readonly : bool) (value : Z) (events : list StarEvent) :
  Forall pointer events ->
  (forall hover,
     length (List.filter (fun b : bool => b) (drawn hover value)) =
       Z.to_nat (Z.max 0 (Z.min 5 (shownRating hover value))) /\
     (forall i j, (i <= j)%nat ->
        nth j (drawn hover value) false = true ->
        nth i (drawn hover value) false = true)) /\
  0 <= hover_run readonly events <= 5 /\
  Forall (fun rating => 1 <= rating <= 5) (emitted_run readonly events) /\
  (readonly = true ->
   hover_run readonly events = 0 /\
   emitted_run readonly events = [] /\
   length (List.filter (fun b : bool => b)
             (drawn (hover_run readonly events) value)) =
     Z.to_nat (Z.max 0 (Z.min 5 value))).
Proof.
  intros H.
  split; [ intros hover; split; [ apply drawn_count | apply drawn_prefix ] | ].
  split; [ now apply hover_run_bounds | ].
  split; [ now apply emitted_run_stars | ].
  intros ->. rewrite hover_run_readonly, emitted_run_readonly.
  split; [ reflexivity | split; [ reflexivity | ] ].
  now rewrite drawn_count.
Qed.

Lemma stars_drawn_and_ratings_emitted_witness :
  Forall (fun rating => 1 <= rating <= 5)
         (emitted_run false [MouseEnter 4; Click 4; MouseLeave; Click 2]).
Proof.
  apply (stars_drawn_and_ratings_emitted false 0
           [MouseEnter 4; Click 4; MouseLeave; Click 2]).
  repeat constructor; simpl; tauto.
Defined.

End StarFacts.

(** ** The panel as a whole *)

Module PanelFacts.
Import AdminPanel.

Section ByKey.
Context {A : Type} (comparefn : A -> A -> Q) (key : A -> Z).
Hypothesis comparefn_key :
  forall a b, Qle_bool (comparefn a b) 0 = (key a <=? key b).

(** An element that is not after the head of a list is inserted in front
    of it. *)
Lemma sort_insert_front (x : A) (l : list A) :
  Forall (fun b => key x <= key b) l ->
  JS.sort_insert comparefn x l = x :: l.
Proof.
  destruct l as [ | y l ]; simpl; [ reflexivity | ].
  intros H. inversion H as [ | ? ? Hy _ ]; subst.
  rewrite comparefn_key. apply Z.leb_le in Hy. now rewrite Hy.
Qed.

(** Sorting a sorted array leaves it as it is. *)
Lemma sort_of_sorted (l : list A) :
  StronglySorted (fun a b => key a <= key b) l ->
  JS.sort comparefn l = l.
Proof.
  induction 1 as [ | a l Hl IH Ha ]; simpl; [ reflexivity | ].
  rewrite IH. now apply sort_insert_front.
Qed.

Lemma sort_idempotent (l : list A) :
  JS.sort comparefn (JS.sort comparefn l) = JS.sort comparefn l.
Proof.
  apply sort_of_sorted. now apply (SortFacts.sort_sorted comparefn key).
Qed.

(** Filtering after an insertion in a sorted array is inserting in the
    filtered array, when the element passes the filter. *)
Lemma filter_sort_insert (p : A -> bool) (x : A) (l : list A) :
  StronglySorted (fun a b => key a <= key b) l ->
  List.filter p (JS.sort_insert comparefn x l) =
  if p x then JS.sort_insert comparefn x (List.filter p l) else List.filter p l.
Proof.
  induction 1 as [ | y l Hl IH Hy ]; simpl.
  - destruct (p x); reflexivity.
  - rewrite comparefn_key. destruct (key x <=? key y) eqn:E.
    + apply Z.leb_le in E. simpl. destruct (p x); [ | reflexivity ].
      symmetry. apply sort_insert_front.
      destruct (p y).
      * constructor; [ exact E | ].
        apply List.Forall_forall. intros b Hb. apply filter_In in Hb.
        rewrite List.Forall_forall in Hy. specialize (Hy b (proj1 Hb)).
        simpl in Hy. lia.
      * apply List.Forall_forall. intros b Hb. apply filter_In in Hb.
        rewrite List.Forall_forall in Hy. specialize (Hy b (proj1 Hb)).
        simpl in Hy. lia.
    + simpl. rewrite IH. destruct (p y) eqn:Ey; destruct (p x) eqn:Ex;
        simpl; try reflexivity.
      now rewrite comparefn_key, E.
Qed.

(** Sorting what passes a filter is filtering what is sorted. *)
Lemma sort_filter (p : A -> bool) (l : list A) :
  JS.sort comparefn (List.filter p l) = List.filter p (JS.sort comparefn l).
Proof.
  induction l as [ | x l IH ]; simpl; [ reflexivity | ].
  rewrite filter_sort_insert by now apply (SortFacts.sort_sorted comparefn key).
  destruct (p x); simpl; now rewrite IH.
Qed.
End ByKey.

(** A second call of [filteredAndSortedFeedbacks] finds the feedbacks as
    the first left them, and returns what the first returned. *)
Lemma project_again (st : PanelState) :
  project (snd (project st)) = project st.
Proof.
  destruct st as [fb ld sb flt]. unfold project, filteredAndSortedFeedbacks.
  destruct flt; simpl.
  - now rewrite !(sort_idempotent _ _ (Projection.compareFeedbacks_key sb)).
  - reflexivity.
Qed.

Lemma project_feedbacks (st : PanelState) :
  snd (project st) =
  {| feedbacks := match minRatingFilter st with
                  | filter_all => fst (project st)
                  | filter_min _ => feedbacks st
                  end;
     loading := loading st; sortBy := sortBy st;
     minRatingFilter := minRatingFilter st |}.
Proof. destruct st as [fb ld sb flt]. destruct flt; reflexivity. Qed.

Lemma project_Permutation (st : PanelState) :
  Permutation (feedbacks (snd (project st))) (feedbacks st).
Proof.
  rewrite project_feedbacks. destruct st as [fb ld sb flt]. destruct flt; simpl.
  - apply SortFacts.sort_Permutation.
  - reflexivity.
Qed.

Lemma render_loaded (st : PanelState) :
  loading st = false ->
  render st =
  (Some {| titleCount := length (fst (project st));
           cards := fst (project st);
           emptyNotice := match fst (project st) with [] => true | _ => false end |},
   snd (project st)).
Proof.
  intros Hl. unfold render. rewrite Hl.
  rewrite (surjective_pairing (project st)).
  rewrite (surjective_pairing (project (snd (project st)))).
  rewrite project_again.
  rewrite (surjective_pairing (project (snd (project st)))).
  rewrite project_again.
  f_equal. f_equal. f_equal. now destruct (fst (project st)).
Qed.

Lemma render_state (st : PanelState) :
  snd (render st) = if loading st then st else snd (project st).
Proof.
  destruct (loading st) eqn:Hl.
  - unfold render. now rewrite Hl.
  - now rewrite (render_loaded st Hl).
Qed.

Lemma render_Permutation (st : PanelState) :
  Permutation (feedbacks (snd (render st))) (feedbacks st).
Proof.
  rewrite render_state. destruct (loading st); [ reflexivity | ].
  apply project_Permutation.
Qed.

Lemma render_loading (st : PanelState) : loading (snd (render st)) = loading st.
Proof.
  rewrite render_state. destruct (loading st) eqn:Hl; [ exact Hl | ].
  rewrite project_feedbacks. exact Hl.
Qed.

(** X8.  While the panel is loading a render computes nothing.  Afterwards
    its three calls of [filteredAndSortedFeedbacks] return one and the same
    array, although the first may reorder the feedbacks under the other
    two: the number in the title is the number of cards, and the empty
    notice is shown exactly when there is no card.  With the filter off
    the render leaves the feedbacks in the order of the cards, with a
    minimum as they were; and a second render shows what the first showed
    and changes nothing. *)
Theorem render_shows_one_projection (st : PanelState) :
  render st =
    (if loading st then (None, st)
     else
       (Some {| titleCount :=
                  length (fst (filteredAndSortedFeedbacks (sortBy st)
                                 (minRatingFilter st) (feedbacks st)));
                cards :=
                  fst (filteredAndSortedFeedbacks (sortBy st)
                         (minRatingFilter st) (feedbacks st));
                emptyNotice :=
                  match fst (filteredAndSortedFeedbacks (sortBy st)
                               (minRatingFilter st) (feedbacks st)) with
                  | [] => true
                  | _ :: _ => false
                  end |},
        {| feedbacks :=
             match minRatingFilter st with
             | filter_all =>
                 fst (filteredAndSortedFeedbacks (sortBy st) filter_all (feedbacks st))
             | filter_min _ => feedbacks st
             end;
           loading := false;
           sortBy := sortBy st;
           minRatingFilter := minRatingFilter st |})) /\
  render (snd (render st)) = render st.
Proof.
  split.
  - destruct (loading st) eqn:Hl.
    + unfold render. now rewrite Hl.
    + rewrite (render_loaded st Hl), project_feedbacks, Hl.
      destruct st as [fb ld sb flt]; destruct flt; reflexivity.
  - destruct (loading st) eqn:Hl.
    + unfold render. rewrite Hl. simpl. now rewrite Hl.
    + assert (Hl' : loading (snd (project st)) = false)
        by (rewrite project_feedbacks; exact Hl).
      rewrite (render_loaded st Hl). cbn [snd].
      rewrite (render_loaded _ Hl'), project_again. reflexivity.
Qed.

Lemma received_Permutation (events : list PanelEvent) (l l' : list Feedback) :
  Permutation l l' ->
  Permutation (History.received events l) (History.received events l').
Proof.
  revert l l'. induction events as [ | ev events IH ]; intros l l' H.
  - exact H.
  - unfold History.received. simpl fold_left. apply IH.
    destruct ev as [ [ data | ] | r | | | ]; try exact H.
    + reflexivity.
    + now apply perm_skip.
Qed.

Lemma panel_run_Permutation (events : list PanelEvent) (st : PanelState) :
  Permutation (feedbacks (panel_run events st))
              (History.received events (feedbacks st)).
Proof.
  revert st. induction events as [ | ev events IH ]; intros st.
  - reflexivity.
  - unfold panel_run. simpl fold_left. fold (panel_run events (panel_step st ev)).
    rewrite IH. unfold History.received at 2. simpl fold_left.
    apply received_Permutation.
    destruct ev as [ [ data | ] | r | | | ]; try reflexivity.
    simpl. apply render_Permutation.
Qed.

Lemma panel_run_loading (events : list PanelEvent) (st : PanelState) :
  loading (panel_run events st) =
  loading st &&
  forallb (fun ev => match ev with Fetched _ => false | _ => true end) events.
Proof.
  revert st. induction events as [ | ev events IH ]; intros st.
  - simpl. now rewrite andb_true_r.
  - unfold panel_run. simpl fold_left. fold (panel_run events (panel_step st ev)).
    rewrite IH. simpl forallb.
    destruct ev as [ result | r | | | ]; simpl; try reflexivity.
    + now rewrite andb_false_r.
    + now rewrite render_loading.
Qed.

(** X9.  Whatever the fetches, notifications, controls and renders, the
    panel holds the feedbacks it has been given, each as often as given,
    in some order: the rows of the last fetch that answered with data and
    the feedbacks notified since.  A fetch that fails keeps what was
    there.  So the total, the averages, the histogram and the percentage
    of recurrent customers are those of what was given, which no control
    and no render changes.  And the panel is loading exactly as long as
    no fetch has answered. *)
Theorem panel_keeps_what_it_received (events : list PanelEvent) (st : PanelState) :
  Permutation (feedbacks (panel_run events st))
              (History.received events (feedbacks st)) /\
  loading (panel_run events st) =
    loading st &&
    forallb (fun ev => match ev with Fetched _ => false | _ => true end) events /\
  length (feedbacks (panel_run events st)) =
    length (History.received events (feedbacks st)) /\
  calculateAverages (feedbacks (panel_run events st)) =
    calculateAverages (History.received events (feedbacks st)) /\
  getRatingDistribution (feedbacks (panel_run events st)) =
    getRatingDistribution (History.received events (feedbacks st)) /\
  getRecurrentCustomers (feedbacks (panel_run events st)) =
    getRecurrentCustomers (History.received events (feedbacks st)).
Proof.
  pose proof (panel_run_Permutation events st) as H.
  split; [ exact H | ].
  split; [ apply panel_run_loading | ].
  split; [ now apply Permutation_length | ].
  split; [ now apply Averages.calculateAverages_Permutation | ].
  split; [ now apply Histogram.getRatingDistribution_Permutation | ].
  now apply Recurrence.getRecurrentCustomers_Permutation.
Qed.

Lemma filter_filter_implied {A : Type} (p q : A -> bool) (l : list A) :
  (forall a, q a = true -> p a = true) ->
  List.filter q (List.filter p l) = List.filter q l.
Proof.
  intros H. induction l as [ | a l IH ]; simpl; [ reflexivity | ].
  destruct (p a) eqn:Ep; simpl.
  - now rewrite IH.
  - destruct (q a) eqn:Eq; [ | exact IH ].
    apply H in Eq. congruence.
Qed.

Lemma filter_all_true {A : Type} (p : A -> bool) (l : list A) :
  Forall (fun a => p a = true) l -> List.filter p l = l.
Proof.
  induction 1 as [ | a l Ha _ IH ]; simpl; [ reflexivity | ].
  now rewrite Ha, IH.
Qed.

(** X10.  A minimum only removes cards: under each order the projection
    with the minimum [k] is the projection without a filter with the
    feedbacks below [k] taken out, the others in their places; raising
    the minimum from [k] to [k'] takes further cards out of the projection
    with [k] and moves none; and a minimum of 1 or less removes no
    feedback with scores from 1 to 5. *)
Theorem minimum_only_removes_cards
    (sortBy : SortBy) (k k' : Z) (feedbacks : list Feedback) :
  fst (filteredAndSortedFeedbacks sortBy (filter_min k) feedbacks) =
    List.filter (passesMinRating k)
      (fst (filteredAndSortedFeedbacks sortBy filter_all feedbacks)) /\
  (k <= k' ->
   fst (filteredAndSortedFeedbacks sortBy (filter_min k') feedbacks) =
     List.filter (passesMinRating k')
       (fst (filteredAndSortedFeedbacks sortBy (filter_min k) feedbacks))) /\
  (k <= 1 -> Forall Spec.validScores feedbacks ->
   fst (filteredAndSortedFeedbacks sortBy (filter_min k) feedbacks) =
     fst (filteredAndSortedFeedbacks sortBy filter_all feedbacks)).
Proof.
  unfold filteredAndSortedFeedbacks; simpl fst.
  pose proof (sort_filter _ _ (Projection.compareFeedbacks_key sortBy)) as Hc.
  split; [ apply Hc | split ].
  - intros Hk. rewrite <- Hc. f_equal. symmetry. apply filter_filter_implied.
    intros a. unfold passesMinRating. rewrite !Qle_bool_iff. intros H.
    apply Qle_trans with (y := inject_Z k'); [ | exact H ].
    now rewrite <- Zle_Qle.
  - intros Hk Hv. f_equal. apply filter_all_true.
    eapply List.Forall_impl; [ | exact Hv ]. intros a Ha.
    unfold passesMinRating. apply Qle_bool_iff.
    pose proof (Exactness.scoreSum_bounds a Ha) as Hs.
    unfold avgRating, Qle, Qdiv, Qmult, Qinv, inject_Z; simpl. lia.
Qed.

Lemma minimum_only_removes_cards_witness :
  fst (filteredAndSortedFeedbacks best (filter_min 4)
         [Sample.bruno; Sample.ana; Sample.carla]) =
    List.filter (passesMinRating 4)
      (fst (filteredAndSortedFeedbacks best (filter_min 2)
              [Sample.bruno; Sample.ana; Sample.carla])) /\
  fst (filteredAndSortedFeedbacks worst (filter_min 1)
         [Sample.bruno; Sample.ana; Sample.carla]) =
    fst (filteredAndSortedFeedbacks worst filter_all
           [Sample.bruno; Sample.ana; Sample.carla]).
Proof.
  split.
  - apply (proj1 (proj2 (minimum_only_removes_cards best 2 4
                           [Sample.bruno; Sample.ana; Sample.carla]))).
    lia.
  - apply (proj2 (proj2 (minimum_only_removes_cards worst 1 1
                           [Sample.bruno; Sample.ana; Sample.carla]))).
    + lia.
    + repeat constructor; simpl; lia.
Defined.

(** X11.  The export writes the feedbacks the panel holds, not the cards:
    whatever filter and order are set, and whatever has been rendered,
    when no name, cpf, telephone or instagram given to the panel holds a
    comma, a quote or a line feed, the export is read back as the header
    row and one row for each feedback given, with the values of that
    feedback, the rows in some order. *)
Theorem export_holds_what_was_received (events : list PanelEvent) (st : PanelState) :
  Forall CSV.plainCustomer (History.received events (feedbacks st)) ->
  exists rows,
    CSV.parse (exportToCSV (feedbacks (panel_run events st))) = headers :: rows /\
    Permutation rows (map CSV.fieldValues (History.received events (feedbacks st))).
Proof.
  intros H. pose proof (panel_run_Permutation events st) as Hp.
  exists (map CSV.fieldValues (feedbacks (panel_run events st))).
  split; [ | now apply Permutation_map ].
  apply (Permutation_Forall (Permutation_sym Hp)) in H.
  clear Hp. revert H. generalize (feedbacks (panel_run events st)). intros l H.
  unfold exportToCSV. rewrite ExportFacts.join_lines. unfold CSV.parse.
  change headers
    with ([ "Nome"; "CPF"; "Telefone"; "Instagram"; "Data"; "Qualidade Comida";
            "Atendimento"; "Tempo Espera"; "Higiene"; "Custo-Benefício";
            "Ambiente" ]%string ++ ["Comentário"%string]) at 1.
  rewrite (ExportFacts.read_row
             [ "Nome"; "CPF"; "Telefone"; "Instagram"; "Data"; "Qualidade Comida";
               "Atendimento"; "Tempo Espera"; "Higiene"; "Custo-Benefício";
               "Ambiente" ]%string
             "Comentário"%string "Comentário"%string).
  - rewrite (ExportFacts.read_recordLines l H). reflexivity.
  - repeat constructor.
  - intros rest' Hrest'. now apply ExportFacts.read_CellStart_plain.
  - apply ExportFacts.recordLines_atDelimiter.
Qed.

Lemma export_holds_what_was_received_witness :
  exists rows,
    CSV.parse
      (exportToCSV
         (feedbacks
            (panel_run [ Fetched (fetch_data (Some [Sample.carla; Sample.ana]));
                         Inserted Sample.bruno;
                         MinRatingFilterSet (filter_min 4);
                         Rendered;
                         SortBySet worst;
                         MinRatingFilterSet filter_all;
                         Rendered ]
                       panel_initial))) = headers :: rows /\
    Permutation rows
      (map CSV.fieldValues [Sample.bruno; Sample.carla; Sample.ana]).
Proof.
  apply (export_holds_what_was_received
           [ Fetched (fetch_data (Some [Sample.carla; Sample.ana]));
             Inserted Sample.bruno;
             MinRatingFilterSet (filter_min 4);
             Rendered;
             SortBySet worst;
             MinRatingFilterSet filter_all;
             Rendered ]
           panel_initial).
  repeat constructor.
Defined.

End PanelFacts.

(** ** The rows the form sends *)

Module FormFacts.
Import CustomerForm.

Lemma entered_initial (events : list FormEvent) : History.entered events initial.
Proof.
  unfold History.entered; cbn zeta; simpl. repeat split; try congruence.
  intros key; destruct key; simpl; congruence.
Qed.

Lemma entered_more (pre : list FormEvent) (ev : FormEvent) (s : FormState) :
  History.entered pre s -> History.entered (pre ++ [ev]) s.
Proof.
  unfold History.entered. intros (H1 & H2 & H3 & H4 & H5 & H6).
  repeat split; intros; apply in_or_app; left; auto.
Qed.

(** Each handler keeps the invariant: what it writes in the form is the
    value of its event, and a reset leaves nothing to account for. *)
Lemma entered_step (pre : list FormEvent) (ev : FormEvent) (s : FormState) :
  History.entered pre s -> History.entered (pre ++ [ev]) (fst (form_step s ev)).
Proof.
  intros H. pose proof (entered_more pre ev s H) as (H1 & H2 & H3 & H4 & H5 & H6).
  assert (Hlast : In ev (pre ++ [ev])) by (apply in_or_app; right; now left).
  destruct ev as [ field value | field star | value | insertError ].
  - destruct field; simpl; unfold History.entered; simpl; repeat split; auto.
  - simpl. unfold History.entered; simpl. repeat split; auto.
    intros key Hk. specialize (H5 key).
    destruct field, key; simpl in *; auto.
  - simpl. unfold History.entered; simpl. repeat split; auto.
  - simpl. unfold handleSubmit.
    destruct (negb (validateForm s)); simpl; [ unfold History.entered; auto 10 | ].
    destruct insertError; [ unfold History.entered; auto 10 | apply entered_initial ].
Qed.

Lemma entered_row (pre : list FormEvent) (insertError : bool) (s : FormState)
    (row : FeedbackInsert) :
  History.entered pre s ->
  fst (handleSubmit insertError s) = Some row ->
  In (Typed k_name (nome row)) pre /\
  In (Typed k_cpf (ins_cpf row)) pre /\
  In (Typed k_phone (telefone row)) pre /\
  In (Typed k_instagram (ins_instagram row)) pre /\
  In (StarClicked k_foodQuality (qualidade_comida row)) pre /\
  In (StarClicked k_service (atendimento row)) pre /\
  In (StarClicked k_waitTime (tempo_espera row)) pre /\
  In (StarClicked k_cleanliness (higiene_limpeza row)) pre /\
  In (StarClicked k_valueForMoney (custo_beneficio row)) pre /\
  In (StarClicked k_ambiance (ambiente_conforto row)) pre /\
  match comentario row with
  | Some text => text <> EmptyString /\ In (CommentTyped text) pre
  | None => True
  end.
Proof.
  intros (H1 & H2 & H3 & H4 & H5 & H6) Hrow. unfold handleSubmit in Hrow.
  destruct (validateForm s) eqn:Hv; simpl in Hrow; [ | discriminate ].
  injection Hrow as <-.
  apply Validation.validateForm_true_iff in Hv.
  destruct Hv as (V1 & V2 & V3 & V4 & V5). simpl.
  repeat split; auto.
  destruct (comment (ratings s)) eqn:E; simpl; [ exact I | ].
  split; [ congruence | apply H6; congruence ].
Qed.

(** A row that is sent is sent by a submit, from a form whose values were
    entered before it. *)
Lemma form_run_entered (events : list FormEvent) :
  forall (pre : list FormEvent) (s : FormState) (row : FeedbackInsert),
    History.entered pre s ->
    In row (snd (form_run events s)) ->
    exists before insertError after s',
      events = before ++ Submitted insertError :: after /\
      History.entered (pre ++ before) s' /\
      fst (handleSubmit insertError s') = Some row.
Proof.
  induction events as [ | ev events IH ]; intros pre s row Hpre Hin.
  - destruct Hin.
  - simpl in Hin.
    pose proof (entered_step pre ev s Hpre) as Hstep.
    destruct (form_step s ev) as [s1 sent] eqn:Es.
    destruct (form_run events s1) as [s2 rows] eqn:Er.
    assert (Hrest : In row rows ->
              exists before insertError after s',
                ev :: events = before ++ Submitted insertError :: after /\
                History.entered (pre ++ before) s' /\
                fst (handleSubmit insertError s') = Some row).
    { intros Hrows.
      destruct (IH (pre ++ [ev]) s1 row) as (before & e & after & s' & -> & He & Hs).
      - exact Hstep.
      - now rewrite Er.
      - exists (ev :: before), e, after, s'. split; [ reflexivity | ].
        split; [ | exact Hs ]. now rewrite <- app_assoc in He. }
    destruct sent as [ r | ]; simpl in Hin; [ | now apply Hrest ].
    destruct Hin as [ -> | Hin ]; [ | now apply Hrest ].
    destruct ev as [ field value | field star | value | insertError ];
      simpl in Es; try discriminate.
    exists [], insertError, events, s. split; [ reflexivity | ].
    rewrite app_nil_r. split; [ exact Hpre | ].
    destruct (handleSubmit insertError s) as [row' s'']. simpl.
    now injection Es as _ ->.
Qed.

(** X12.  A submit that sends a row and meets no error leaves the form
    empty.  And once the form is empty, at the start or after such a
    submit, every row sent later holds only what was entered later,
    before the submit that sends it: each of the four fields was typed
    with the value sent, each of the six criteria was clicked at the star
    sent, and the comment, if one is sent, is not empty and was typed.
    Nothing entered before the form was emptied reaches a later row. *)
Theorem sent_rows_were_entered
    (earlier events : list FormEvent) (row : FeedbackInsert) :
  (forall s sent,
     fst (handleSubmit false s) = Some sent ->
     snd (handleSubmit false s) = initial) /\
  (fst (form_run earlier initial) = initial ->
   In row (snd (form_run events (fst (form_run earlier initial)))) ->
   exists before insertError after,
     events = before ++ Submitted insertError :: after /\
     In (Typed k_name (nome row)) before /\
     In (Typed k_cpf (ins_cpf row)) before /\
     In (Typed k_phone (telefone row)) before /\
     In (Typed k_instagram (ins_instagram row)) before /\
     In (StarClicked k_foodQuality (qualidade_comida row)) before /\
     In (StarClicked k_service (atendimento row)) before /\
     In (StarClicked k_waitTime (tempo_espera row)) before /\
     In (StarClicked k_cleanliness (higiene_limpeza row)) before /\
     In (StarClicked k_valueForMoney (custo_beneficio row)) before /\
     In (StarClicked k_ambiance (ambiente_conforto row)) before /\
     match comentario row with
     | Some text => text <> EmptyString /\ In (CommentTyped text) before
     | None => True
     end).
Proof.
  split.
  - intros s sent. unfold handleSubmit.
    destruct (negb (validateForm s)); simpl; [ discriminate | reflexivity ].
  - intros Hempty Hin. rewrite Hempty in Hin.
    destruct (form_run_entered events [] initial row (entered_initial []) Hin)
      as (before & e & after & s' & Hev & He & Hs).
    exists before, e, after. split; [ exact Hev | ].
    now apply (entered_row before e s').
Qed.

Lemma sent_rows_were_entered_witness :
  exists before insertError after,
    Sample.filling "Bia" "555.555.555-55" 2
      ++ [CommentTyped "frio"; Submitted true; Submitted false] =
      before ++ Submitted insertError :: after /\
    In (Typed k_name "Bia") before /\
    In (Typed k_cpf "555.555.555-55") before /\
    In (Typed k_phone "(11) 99999-9999") before /\
    In (Typed k_instagram "lardo") before /\
    In (StarClicked k_foodQuality 2) before /\
    In (StarClicked k_service 2) before /\
    In (StarClicked k_waitTime 2) before /\
    In (StarClicked k_cleanliness 2) before /\
    In (StarClicked k_valueForMoney 2) before /\
    In (StarClicked k_ambiance 2) before /\
    "frio"%string <> EmptyString /\ In (CommentTyped "frio") before.
Proof.
  apply (proj2 (sent_rows_were_entered
                  (Sample.filling "Ana" "111.111.111-11" 5 ++ [Submitted false])
                  (Sample.filling "Bia" "555.555.555-55" 2
                     ++ [CommentTyped "frio"; Submitted true; Submitted false])
                  (Sample.row "Bia" "555.555.555-55" 2 (Some "frio"%string)))).
  - vm_compute. reflexivity.
  - vm_compute. left. reflexivity.
Defined.

End FormFacts.
